(** * The duplication detector of scripts/check-dry.py

    A shallow embedding of [CodeBlock], [DuplicationDetector] and [main],
    followed by the properties of the detector.

    Conventions of the embedding.
    - A Python [str] is a [string]; a character is a code point below 256.
    - A Python [int] is a [Z]; [len] results are [nat] and are injected
      into [Z] where the code does arithmetic on them.
    - A Python [float] that the detector produces or compares (similarity
      ratios, the threshold, the literal 1.0 and 0.5) is an exact rational
      of [Q]; the rounding of the division is not modelled.
    - Code that can raise runs in the monad [M]: a computation takes the
      store of its scope and the standard output, and yields an [outcome]
      (a value or a raised exception) with the updated store and output. *)

From Stdlib Require Import ZArith QArith List String Ascii Lia Bool DecimalString.
From Stdlib Require Import Sorted Permutation DecimalZ.
From stdpp Require Import base list gmap strings.

(** ** Python string primitives *)

Module Py.

(** [str.isspace] on the code points below 256. *)
Definition isspace (c : ascii) : bool :=
  let n := nat_of_ascii c in
  ((9 <=? n) && (n <=? 13)) || ((28 <=? n) && (n <=? 32))
  || (n =? 133) || (n =? 160).

(** The line boundaries of [str.splitlines] below 256. *)
Definition is_linebreak (c : ascii) : bool :=
  let n := nat_of_ascii c in
  ((10 <=? n) && (n <=? 13)) || ((28 <=? n) && (n <=? 30)) || (n =? 133).

Definition LF : ascii := "010"%char.
Definition CR : ascii := "013"%char.

Definition len (s : string) : nat := String.length s.

Fixpoint lstrip (s : string) : string :=
  match s with
  | EmptyString => EmptyString
  | String c s' => if isspace c then lstrip s' else s
  end.

Fixpoint rstrip (s : string) : string :=
  match s with
  | EmptyString => EmptyString
  | String c s' =>
      match rstrip s' with
      | EmptyString => if isspace c then EmptyString else String c EmptyString
      | r => String c r
      end
  end.

(** [s.strip()] *)
Definition strip (s : string) : string := rstrip (lstrip s).

(** [s.count(c)] for a one-character pattern. *)
Fixpoint count (c : ascii) (s : string) : nat :=
  match s with
  | EmptyString => 0
  | String d s' => (if Ascii.eqb c d then 1 else 0) + count c s'
  end.

Definition cons_to_first (c : ascii) (l : list string) : list string :=
  match l with
  | [] => [String c EmptyString]
  | w :: ws => String c w :: ws
  end.

(** [s.splitlines()]: the lines without their terminators; CR LF is one
    terminator; no empty last line after a final terminator. *)
Fixpoint splitlines (s : string) : list string :=
  match s with
  | EmptyString => []
  | String c s' =>
      if is_linebreak c then
        match s' with
        | String d s'' =>
            if Ascii.eqb c CR && Ascii.eqb d LF
            then EmptyString :: splitlines s''
            else EmptyString :: splitlines s'
        | EmptyString => [EmptyString]
        end
      else cons_to_first c (splitlines s')
  end.

(** [f.readlines()] on text read in text mode (universal newlines: every
    line ends at a LF, which the line keeps). *)
Fixpoint readlines (s : string) : list string :=
  match s with
  | EmptyString => []
  | String c s' =>
      if Ascii.eqb c LF then String c EmptyString :: readlines s'
      else cons_to_first c (readlines s')
  end.

(** [s.split()]: the maximal runs of non-whitespace characters. *)
Fixpoint split (s : string) : list string :=
  match s with
  | EmptyString => []
  | String c s' =>
      if isspace c then split s'
      else
        match s' with
        | EmptyString => [String c EmptyString]
        | String d _ =>
            if isspace d then String c EmptyString :: split s'
            else cons_to_first c (split s')
        end
  end.

(** [sep.join(l)] *)
Fixpoint join (sep : string) (l : list string) : string :=
  match l with
  | [] => EmptyString
  | x :: l' =>
      match l' with
      | [] => x
      | _ :: _ => x +:+ sep +:+ join sep l'
      end
  end.

(** [str(n)] for an [int]. *)
Definition str (z : Z) : string := NilZero.string_of_int (Z.to_int z).

(** The bound of a slice [l[i:j]] once resolved against [len(l)]: a
    negative index counts from the end, and both ends are clamped. *)
Definition slice_index (n i : Z) : Z :=
  if (i <? 0)%Z then Z.max 0 (i + n) else Z.min i n.

(** [l[i:j]] *)
Definition slice {A : Type} (l : list A) (i j : Z) : list A :=
  let n := Z.of_nat (length l) in
  let a := slice_index n i in
  let b := slice_index n j in
  take (Z.to_nat (b - a)) (drop (Z.to_nat a) l).

(** [range(lo, hi)] *)
Definition range (lo hi : Z) : list Z :=
  map (fun k => (lo + Z.of_nat k)%Z) (seq 0 (Z.to_nat (hi - lo))).

Fixpoint enumerate_from {A : Type} (n : nat) (l : list A) : list (nat * A) :=
  match l with
  | [] => []
  | x :: l' => (n, x) :: enumerate_from (S n) l'
  end.

(** [enumerate(l)] *)
Definition enumerate {A : Type} (l : list A) : list (nat * A) :=
  enumerate_from 0 l.

End Py.

(** ** Exceptions, output and the monad of the embedding *)

(** The exceptions the program can meet, all of them subclasses of
    [Exception]. *)
Inductive exn :=
| SyntaxError (msg : string)
| OSError (msg : string)
| UnicodeDecodeError (msg : string)
| ValueError (msg : string)
| ZeroDivisionError
| IndexError.

Definition is_SyntaxError (e : exn) : bool :=
  match e with
  | SyntaxError _ => true
  | _ => false
  end.

(** [str(e)] *)
Definition exn_str (e : exn) : string :=
  match e with
  | SyntaxError msg | OSError msg | UnicodeDecodeError msg | ValueError msg => msg
  | ZeroDivisionError => "division by zero"
  | IndexError => "list index out of range"
  end.

(** What an operation of the language or of a library gives: a value or
    an exception. *)
Inductive result (A : Type) :=
| Ok (a : A)
| Err (e : exn).
Arguments Ok {A} a.
Arguments Err {A} e.

(** How a computation ends: it returns, an exception leaves it, or
    [sys.exit] was called ([SystemExit] is no [Exception]: no [except]
    clause of the program catches it). *)
Inductive outcome (A : Type) :=
| Returned (a : A)
| Raised (e : exn)
| Exited (code : Z).
Arguments Returned {A} a.
Arguments Raised {A} e.
Arguments Exited {A} code.

(** A printed line: text with the formatted floats left symbolic
    ([Pct d q] stands for the rendering of [q] by the format [.d%]). *)
Inductive frag :=
| Str (s : string)
| Pct (decimals : nat) (q : Q).

Definition text := list frag.
Definition stdout := list text.

(** [M L A]: a computation over the store [L] of the running scope. *)
Definition M (L A : Type) : Type := L * stdout -> outcome A * (L * stdout).

Definition ret {L A} (a : A) : M L A := fun s => (Returned a, s).

Definition bind {L A B} (m : M L A) (k : A -> M L B) : M L B :=
  fun s =>
    match m s with
    | (Returned a, s') => k a s'
    | (Raised e, s') => (Raised e, s')
    | (Exited code, s') => (Exited code, s')
    end.

Definition raise {L A} (e : exn) : M L A := fun s => (Raised e, s).

(** [sys.exit(code)] *)
Definition sys_exit {L A} (code : Z) : M L A := fun s => (Exited code, s).

Definition get {L} : M L L := fun s => (Returned (fst s), s).

Definition modify {L} (f : L -> L) : M L unit :=
  fun s => (Returned tt, (f (fst s), snd s)).

(** [print(t)] *)
Definition print {L} (t : text) : M L unit :=
  fun s => (Returned tt, (fst s, snd s ++ [t])).

(** The value of an operation, or the exception it raised. *)
Definition lift {L A} (r : result A) : M L A :=
  fun s =>
    match r with
    | Ok a => (Returned a, s)
    | Err e => (Raised e, s)
    end.

#[global] Instance M_ret {L} : MRet (M L) := fun A => @ret L A.
#[global] Instance M_bind {L} : MBind (M L) := fun A B k m => @bind L A B m k.

(** [try: body  except ...: handler], where the last clause is [except
    Exception]: every exception reaches [handler]. *)
Definition try_except {L A} (body : M L A) (handler : exn -> M L A) : M L A :=
  fun s =>
    match body s with
    | (Returned a, s') => (Returned a, s')
    | (Raised e, s') => handler e s'
    | (Exited code, s') => (Exited code, s')
    end.

(** [for x in l: body x] *)
Fixpoint for_each {L A} (l : list A) (body : A -> M L unit) : M L unit :=
  match l with
  | [] => ret tt
  | x :: l' => body x;; for_each l' body
  end.

(** A call: the callee runs on a store of its own and shares the output;
    the caller gets the result and the callee's final store. *)
Definition call {L L' A} (init : L') (m : M L' A) : M L (A * L') :=
  fun s =>
    match m (init, snd s) with
    | (Returned a, (l', out)) => (Returned (a, l'), (fst s, out))
    | (Raised e, (_, out)) => (Raised e, (fst s, out))
    | (Exited code, (_, out)) => (Exited code, (fst s, out))
    end.

(** ** utils.py: coloured output *)

Module Colors.
Definition ESC : string := String (ascii_of_nat 27) EmptyString.
Definition RED : string := ESC +:+ "[0;31m".
Definition GREEN : string := ESC +:+ "[0;32m".
Definition YELLOW : string := ESC +:+ "[1;33m".
Definition CYAN : string := ESC +:+ "[0;36m".
Definition NC : string := ESC +:+ "[0m".
End Colors.

Definition print_colored {L} (message : text) (color : string) : M L unit :=
  print ([Str color] ++ message ++ [Str Colors.NC]).

Definition print_error {L} (message : text) : M L unit :=
  print_colored (Str "✗ " :: message) Colors.RED.

Definition print_info {L} (message : text) : M L unit :=
  print_colored message Colors.CYAN.

(** ** check-dry.py: the data model *)

(** [class CodeBlock].  [hash] is set by the constructor. *)
Record CodeBlock := mkCodeBlock {
  file_path : string;
  start_line : Z;
  end_line : Z;
  content : string;
  hash : string
}.

(** A [CodeBlock] object as the detector holds it: the tuples of
    [self.duplicates] and the lists of [hash_groups] refer to the objects
    of [self.blocks], and each object is appended to [self.blocks] once,
    so its position there stands for its identity. *)
Abbreviation obj := (nat * CodeBlock)%type.

(** An element of [self.duplicates]: [(block1, block2, similarity)]. *)
Abbreviation DuplicatePair := (obj * obj * Q)%type.

Definition dp_block1 (d : DuplicatePair) : CodeBlock := d.1.1.2.
Definition dp_block2 (d : DuplicatePair) : CodeBlock := d.1.2.2.
Definition dp_id1 (d : DuplicatePair) : nat := d.1.1.1.
Definition dp_id2 (d : DuplicatePair) : nat := d.1.2.1.
Definition dp_score (d : DuplicatePair) : Q := d.2.

(** [class DuplicationDetector] *)
Record DuplicationDetector := mkDetector {
  min_lines : Z;
  similarity_threshold : Q;
  blocks : list CodeBlock;
  duplicates : list DuplicatePair
}.

Definition DuplicationDetector_init (min_lines : Z) (similarity_threshold : Q)
  : DuplicationDetector :=
  mkDetector min_lines similarity_threshold [] [].

Definition extend_blocks (new : list CodeBlock) (self : DuplicationDetector)
  : DuplicationDetector :=
  mkDetector (min_lines self) (similarity_threshold self)
    (blocks self ++ new) (duplicates self).

Definition append_duplicates (ds : list DuplicatePair) (self : DuplicationDetector)
  : DuplicationDetector :=
  mkDetector (min_lines self) (similarity_threshold self)
    (blocks self) (duplicates self ++ ds).

Definition append_duplicate (d : DuplicatePair) (self : DuplicationDetector)
  : DuplicationDetector :=
  append_duplicates [d] self.

(** A node met by [ast.walk]; only function definitions matter. *)
Inductive ast_node :=
| FunctionDef (lineno : Z) (end_lineno : option Z)
| AsyncFunctionDef (lineno : Z) (end_lineno : option Z)
| OtherNode.

(** The locals of [find_duplicates] that its loops update, with [self]. *)
Record frame := mkFrame {
  self : DuplicationDetector;
  seen_pairs : gset (string * string)
}.

Definition on_self (f : DuplicationDetector -> DuplicationDetector) (fr : frame)
  : frame :=
  mkFrame (f (self fr)) (seen_pairs fr).

Definition add_seen (k : string * string) (fr : frame) : frame :=
  mkFrame (self fr) (seen_pairs fr ∪ {[ k ]}).

Definition NL : string := String Py.LF EmptyString.

(** [a / b] on two [int]s *)
Definition truediv (a b : nat) : result Q :=
  if (b =? 0)%nat then Err ZeroDivisionError
  else Ok (Z.of_nat a # Pos.of_nat b).

(** [x > y] and [x < y] on floats *)
Definition Qgtb (x y : Q) : bool := negb (Qle_bool x y).
Definition Qltb (x y : Q) : bool := negb (Qle_bool y x).

(** [l[i]]: a negative index counts from the end; [IndexError] outside. *)
Definition index {A : Type} (l : list A) (i : Z) : result A :=
  let n := Z.of_nat (length l) in
  let k := if (i <? 0)%Z then (i + n)%Z else i in
  if (k <? 0)%Z then Err IndexError
  else match l !! Z.to_nat k with
       | Some x => Ok x
       | None => Err IndexError
       end.

(** [groups[h].append(b)] on a [defaultdict(list)]; the association
    list keeps the keys in the order of their first insertion, which is
    the order in which [items()] yields them. *)
Fixpoint group_append {V : Type} (h : string) (b : V)
    (groups : list (string * list V)) : list (string * list V) :=
  match groups with
  | [] => [(h, [b])]
  | (h', bs) :: gs =>
      if String.eqb h h' then (h', bs ++ [b]) :: gs
      else (h', bs) :: group_append h b gs
  end.

(** The collaborators outside the program: the libraries and the file
    system.
    - [md5_hexdigest c] is [hashlib.md5(c.encode()).hexdigest()];
    - [read_text path] is [open(path, "r")] followed by reading the whole
      text: the text as text mode delivers it, or the exception raised;
    - [ast_parse content filename] is [ast.parse] followed by [ast.walk]:
      the nodes in the order [ast.walk] yields them, or the exception
      [ast.parse] raised;
    - [matching_size a b] is the total size of the matching blocks that
      difflib's [SequenceMatcher(None, a, b)] finds;
    - [rglob_py root] is [root.rglob("*.py")];
    - [resolve p] is [Path(p).resolve()], [project_root] is the value of
      [get_project_root()]. *)
Record World := mkWorld {
  md5_hexdigest : string -> string;
  read_text : string -> result string;
  ast_parse : string -> string -> result (list ast_node);
  matching_size : string -> string -> nat;
  rglob_py : string -> list string;
  resolve : string -> string;
  project_root : string
}.

Section Detector.

Variable W : World.

(** [CodeBlock.__init__] *)
Definition CodeBlock_init (file_path : string) (start_line end_line : Z)
    (content : string) : CodeBlock :=
  mkCodeBlock file_path start_line end_line content (md5_hexdigest W content).

(** [CodeBlock.__repr__] *)
Definition CodeBlock_repr (b : CodeBlock) : string :=
  file_path b +:+ ":" +:+ Py.str (start_line b) +:+ "-" +:+ Py.str (end_line b)
  +:+ " (" +:+ Py.str (end_line b - start_line b + 1) +:+ " lines)".

(** *** extract_functions *)

(** [node.end_lineno or start_line] *)
Definition end_lineno_or (end_lineno : option Z) (start_line : Z) : Z :=
  match end_lineno with
  | Some e => if (e =? 0)%Z then start_line else e
  | None => start_line
  end.

(** The body of [for node in ast.walk(tree)]. *)
Definition function_step (self : DuplicationDetector) (file_path content : string)
    (node : ast_node) : M (list CodeBlock) unit :=
  match node with
  | FunctionDef lineno end_lineno | AsyncFunctionDef lineno end_lineno =>
      let start_line := lineno in
      let end_line := end_lineno_or end_lineno start_line in
      if (min_lines self <=? end_line - start_line + 1)%Z then
        let func_content :=
          Py.join NL (Py.slice (Py.splitlines content) (start_line - 1) end_line) in
        modify (fun blocks =>
          blocks ++ [CodeBlock_init file_path start_line end_line func_content])
      else mret tt
  | OtherNode => mret tt
  end.

Definition extract_functions (self : DuplicationDetector) (file_path : string)
  : M (list CodeBlock) (list CodeBlock) :=
  modify (fun _ => []);;
  try_except
    (content ← lift (read_text W file_path);
     tree ← lift (ast_parse W content file_path);
     for_each tree (function_step self file_path content))
    (fun e =>
       if is_SyntaxError e then
         print_error [Str ("Syntax error in " +:+ file_path +:+ ", skipping")]
       else
         print_error
           [Str ("Error processing " +:+ file_path +:+ ": " +:+ exn_str e)]);;
  get.

(** *** extract_code_blocks *)

(** The body of the inner loop, for the window of [window_size] lines
    that starts at index [i]. *)
Definition window_step (file_path : string) (lines : list string)
    (i window_size : Z) : M (list CodeBlock) unit :=
  let content := Py.join EmptyString (Py.slice lines i (i + window_size)) in
  let stripped := Py.strip content in
  if (Py.len stripped <? 20)%nat then mret tt
  else
    r ← lift (truediv (Py.count "#" stripped) (length (Py.splitlines stripped)));
    if Qgtb r (1 # 2) then mret tt
    else
      modify (fun blocks =>
        blocks ++ [CodeBlock_init file_path (i + 1) (i + window_size)
                     (Py.strip content)]).

(** The early [return blocks] inside the [try] ends the [try] body; the
    function then returns [blocks], as the code after the [try] does. *)
Definition extract_code_blocks (self : DuplicationDetector) (file_path : string)
  : M (list CodeBlock) (list CodeBlock) :=
  modify (fun _ => []);;
  try_except
    (text ← lift (read_text W file_path);
     let lines := Py.readlines text in
     let n := Z.of_nat (length lines) in
     if (n <? min_lines self)%Z then mret tt
     else
       for_each (Py.range 0 (n - min_lines self + 1)) (fun i =>
         for_each (Py.range (min_lines self) (Z.min 50 (n - i + 1)))
           (fun window_size => window_step file_path lines i window_size)))
    (fun e =>
       print_error [Str ("Error reading " +:+ file_path +:+ ": " +:+ exn_str e)]);;
  get.

(** *** calculate_similarity *)

(** [SequenceMatcher(None, a, b).ratio()]: twice the matches over the
    total length, and 1.0 when both sequences are empty. *)
Definition ratio (a b : string) : Q :=
  let length := (Py.len a + Py.len b)%nat in
  if (length =? 0)%nat then 1%Q
  else (2 * Z.of_nat (matching_size W a b) # Pos.of_nat length).

Definition calculate_similarity (block1 block2 : CodeBlock) : Q :=
  let content1 := Py.join " " (Py.split (content block1)) in
  let content2 := Py.join " " (Py.split (content block2)) in
  ratio content1 content2.

(** *** find_duplicates *)

(** The body of [for j in range(i + 1, len(blocks))]. *)
Definition exact_pair_step (blocks : list obj) (i j : Z) : M frame unit :=
  bi ← lift (index blocks i);
  bj ← lift (index blocks j);
  modify (on_self (append_duplicate (bi, bj, 1%Q))).

(** The body of [for hash_val, blocks in hash_groups.items()]. *)
Definition exact_group_step (group : string * list obj) : M frame unit :=
  let blocks := group.2 in
  let n := Z.of_nat (length blocks) in
  if (1 <? n)%Z then
    for_each (Py.range 0 n) (fun i =>
      for_each (Py.range (i + 1) n) (fun j => exact_pair_step blocks i j))
  else mret tt.

(** The test guarded by the comment "Skip if same file and overlapping
    lines". *)
Definition same_file_overlap (block1 block2 : CodeBlock) : bool :=
  String.eqb (file_path block1) (file_path block2)
  && negb ((end_line block1 <? start_line block2)%Z
           || (end_line block2 <? start_line block1)%Z).

Definition pair_key (block1 block2 : CodeBlock) : string * string :=
  (file_path block1 +:+ ":" +:+ Py.str (start_line block1),
   file_path block2 +:+ ":" +:+ Py.str (start_line block2)).

(** The body of [for block2 in self.blocks[i + 1 :]]. *)
Definition similarity_step (block1 block2 : obj) : M frame unit :=
  if same_file_overlap block1.2 block2.2 then mret tt
  else
    let pair_key := pair_key block1.2 block2.2 in
    fr ← get;
    if bool_decide (pair_key ∈ seen_pairs fr) then mret tt
    else
      let similarity := calculate_similarity block1.2 block2.2 in
      if Qle_bool (similarity_threshold (self fr)) similarity && Qltb similarity 1
      then
        modify (on_self (append_duplicate (block1, block2, similarity)));;
        modify (add_seen pair_key)
      else mret tt.

(** The body of [for i, block1 in enumerate(self.blocks)]; [objs] is
    [self.blocks] with the positions of its objects. *)
Definition similarity_outer_step (objs : list obj) (block1 : obj) : M frame unit :=
  let i := Z.of_nat block1.1 in
  (if (i mod 100 =? 0)%Z && (0 <? i)%Z then
     print_info [Str ("Progress: " +:+ Py.str i +:+ "/"
                      +:+ Py.str (Z.of_nat (length objs)) +:+ " blocks analyzed")]
   else mret tt);;
  for_each (Py.slice objs (i + 1) (Z.of_nat (length objs)))
    (fun block2 => similarity_step block1 block2).

Definition extract (use_functions : bool) (self : DuplicationDetector)
    (file_path : string) : M (list CodeBlock) (list CodeBlock) :=
  if use_functions then extract_functions self file_path
  else extract_code_blocks self file_path.

Definition find_duplicates (files : list string) (use_functions : bool)
  : M frame unit :=
  print_info [Str ("Analyzing " +:+ Py.str (Z.of_nat (length files))
                   +:+ " Python files...")];;
  for_each files (fun file_path =>
    fr ← get;
    r ← call [] (extract use_functions (self fr) file_path);
    modify (on_self (extend_blocks r.1)));;
  fr ← get;
  let objs := Py.enumerate (blocks (self fr)) in
  print_info [Str ("Found " +:+ Py.str (Z.of_nat (length objs))
                   +:+ " code blocks to analyze")];;
  let hash_groups :=
    fold_left (fun groups block => group_append (hash block.2) block groups)
      objs [] in
  for_each hash_groups exact_group_step;;
  modify (fun fr => mkFrame (self fr) ∅);;
  for_each objs (similarity_outer_step objs).

(** *** print_report *)

(** [sorted(l, key=lambda x: x[2], reverse=True)].  Python's sort is
    stable, also under [reverse=True]; the result is the arrangement that
    inserting each pair before the first pair of a smaller-or-equal score
    to its right produces. *)
Fixpoint insert_desc (d : DuplicatePair) (l : list DuplicatePair)
  : list DuplicatePair :=
  match l with
  | [] => [d]
  | e :: l' =>
      if Qle_bool (dp_score e) (dp_score d) then d :: e :: l'
      else e :: insert_desc d l'
  end.

Definition sorted_desc (l : list DuplicatePair) : list DuplicatePair :=
  foldr insert_desc [] l.

Fixpoint repeat_string (s : string) (n : nat) : string :=
  match n with
  | O => EmptyString
  | S n' => s +:+ repeat_string s n'
  end.

(** The body of [for idx, (block1, block2, similarity) in
    enumerate(sorted_dupes, 1)]; [entry.1] is [idx - 1]. *)
Definition report_entry_step (entry : nat * DuplicatePair)
  : M DuplicationDetector unit :=
  let idx := Z.of_nat (S entry.1) in
  let block1 := dp_block1 entry.2 in
  let block2 := dp_block2 entry.2 in
  let similarity := dp_score entry.2 in
  print [Str (NL +:+ Py.str idx +:+ ". Similarity: "); Pct 1 similarity];;
  print [Str ("   Location 1: " +:+ CodeBlock_repr block1)];;
  print [Str ("   Location 2: " +:+ CodeBlock_repr block2)];;
  if Qeq_bool similarity 1 then
    print [Str ("   " +:+ Colors.RED +:+ "EXACT DUPLICATE" +:+ Colors.NC)]
  else
    print [Str ("   " +:+ Colors.YELLOW +:+ "SIMILAR CODE ("); Pct 1 similarity;
           Str (")" +:+ Colors.NC)].

(** The body of [for block1, block2, similarity in duplicates] of the
    remediation tasks. *)
Definition task_step (d : DuplicatePair) : M DuplicationDetector unit :=
  let block1 := dp_block1 d in
  let block2 := dp_block2 d in
  if Qeq_bool (dp_score d) 1 then
    print [Str ("  [ ] Extract duplicate code at lines "
                +:+ Py.str (start_line block1) +:+ "-" +:+ Py.str (end_line block1)
                +:+ " to shared function")];;
    print [Str ("      Also found in: " +:+ file_path block2)]
  else
    print [Str ("  [ ] Review similar code at lines "
                +:+ Py.str (start_line block1) +:+ "-" +:+ Py.str (end_line block1))];;
    print [Str ("      Similar to: " +:+ file_path block2 +:+ ":"
                +:+ Py.str (start_line block2) +:+ "-" +:+ Py.str (end_line block2))].

Definition print_report : M DuplicationDetector unit :=
  self ← get;
  match duplicates self with
  | [] =>
      print_colored [Str (NL +:+ "✓ No significant code duplication found!")]
        Colors.GREEN
  | _ :: _ =>
      print_colored
        [Str (NL +:+ "✗ Found " +:+ Py.str (Z.of_nat (length (duplicates self)))
              +:+ " duplicate code blocks")]
        Colors.RED;;
      let sorted_dupes := sorted_desc (duplicates self) in
      print [Str (NL +:+ repeat_string "=" 80)];;
      print [Str "DUPLICATION REPORT"];;
      print [Str (repeat_string "=" 80)];;
      for_each (Py.enumerate sorted_dupes) report_entry_step;;
      print [Str (NL +:+ repeat_string "=" 80)];;
      print [Str "REMEDIATION TASKS"];;
      print [Str (repeat_string "=" 80)];;
      let file_groups :=
        fold_left (fun groups d => group_append (file_path (dp_block1 d)) d groups)
          sorted_dupes [] in
      for_each file_groups (fun group =>
        print [Str (NL +:+ Colors.CYAN +:+ group.1 +:+ Colors.NC)];;
        for_each group.2 task_step)
  end.

(** *** find_python_files and main *)

Fixpoint parts_from (cur : string) (s : string) : list string :=
  match s with
  | EmptyString => match cur with EmptyString => [] | _ => [cur] end
  | String c s' =>
      if Ascii.eqb c "/" then
        match cur with
        | EmptyString => parts_from EmptyString s'
        | _ => cur :: parts_from EmptyString s'
        end
      else parts_from (cur +:+ String c EmptyString) s'
  end.

(** [path.parts], the root apart. *)
Definition parts (path : string) : list string := parts_from EmptyString path.

Definition default_exclude_dirs : list string :=
  [".git"; "__pycache__"; ".venv"; "venv"; "node_modules"; ".pytest_cache";
   ".mypy_cache"].

Definition find_python_files (root : string) : list string :=
  let exclude_dirs := default_exclude_dirs in
  filter (fun path =>
            negb (existsb (fun excluded => existsb (String.eqb excluded) (parts path))
                    exclude_dirs) = true)
    (rglob_py W root).

(** The parsed command line. *)
Record args := mkArgs {
  arg_min_lines : Z;
  arg_similarity : Q;
  arg_functions_only : bool;
  arg_path : option string
}.

(** [main], after [parser.parse_args()].  [main] keeps the detector in
    its store once it has made it. *)
Definition main (args : args) : M (option DuplicationDetector) unit :=
  let root := match arg_path args with
              | Some p => resolve W p
              | None => project_root W
              end in
  print_colored [Str "DRY (Don't Repeat Yourself) Enforcement Tool"] Colors.CYAN;;
  print_colored [Str (repeat_string "=" 50)] Colors.CYAN;;
  print [Str ("Analyzing: " +:+ root)];;
  print [Str ("Min lines: " +:+ Py.str (arg_min_lines args))];;
  print [Str "Similarity threshold: "; Pct 0 (arg_similarity args)];;
  print [Str ("Mode: " +:+ (if arg_functions_only args then "Functions only"
                            else "All code blocks"))];;
  print [];;
  let files := find_python_files root in
  (match files with
   | [] => print_error [Str "No Python files found!"];; sys_exit 1
   | _ :: _ => mret tt
   end);;
  let detector :=
    DuplicationDetector_init (arg_min_lines args) (arg_similarity args) in
  modify (fun _ => Some detector);;
  r ← call (mkFrame detector ∅)
        (find_duplicates files (arg_functions_only args));
  let detector := self r.2 in
  modify (fun _ => Some detector);;
  call detector print_report;;
  match duplicates detector with
  | _ :: _ => sys_exit 1
  | [] => sys_exit 0
  end.

(** The exit status of the process for an outcome of [main]: the code
    given to [sys.exit], 1 for an exception nobody caught. *)
Definition exit_status (o : outcome unit) : Z :=
  match o with
  | Returned _ => 0
  | Exited code => code
  | Raised _ => 1
  end.

(** ** What the loops compute

    The functions below give, without the monad, the store and the output
    that the loops above leave; the lemmas of the second part prove it. *)

(** The test the inner loop of [extract_code_blocks] applies to the
    stripped content of a window: [true] when the window is kept. *)
Definition window_kept (stripped : string) : bool :=
  negb (Py.len stripped <? 20)%nat
  && negb (Qgtb (Z.of_nat (Py.count "#" stripped)
                 # Pos.of_nat (length (Py.splitlines stripped))) (1 # 2)).

Definition window_content (lines : list string) (i window_size : Z) : string :=
  Py.join EmptyString (Py.slice lines i (i + window_size)).

Definition window_block (file_path : string) (lines : list string)
    (i window_size : Z) : CodeBlock :=
  CodeBlock_init file_path (i + 1) (i + window_size)
    (Py.strip (window_content lines i window_size)).

Definition window_blocks (file_path : string) (lines : list string)
    (i window_size : Z) : list CodeBlock :=
  if window_kept (Py.strip (window_content lines i window_size))
  then [window_block file_path lines i window_size]
  else [].

(** The pairs (start index, window size) the two loops go through. *)
Definition candidate_windows (min_lines : Z) (n : Z) : list (Z * Z) :=
  flat_map (fun i =>
              map (fun window_size => (i, window_size))
                (Py.range min_lines (Z.min 50 (n - i + 1))))
    (Py.range 0 (n - min_lines + 1)).

Definition code_blocks (min_lines : Z) (file_path : string) (lines : list string)
  : list CodeBlock :=
  let n := Z.of_nat (length lines) in
  if (n <? min_lines)%Z then []
  else flat_map (fun c => window_blocks file_path lines c.1 c.2)
         (candidate_windows min_lines n).

Definition function_blocks (min_lines : Z) (file_path content : string)
    (node : ast_node) : list CodeBlock :=
  match node with
  | FunctionDef lineno end_lineno | AsyncFunctionDef lineno end_lineno =>
      let end_line := end_lineno_or end_lineno lineno in
      if (min_lines <=? end_line - lineno + 1)%Z then
        [CodeBlock_init file_path lineno end_line
           (Py.join NL (Py.slice (Py.splitlines content) (lineno - 1) end_line))]
      else []
  | OtherNode => []
  end.

(** The blocks [extract] returns for a file. *)
Definition extracted (use_functions : bool) (min_lines : Z) (file_path : string)
  : list CodeBlock :=
  match read_text W file_path with
  | Err _ => []
  | Ok text =>
      if use_functions then
        match ast_parse W text file_path with
        | Err _ => []
        | Ok tree => flat_map (function_blocks min_lines file_path text) tree
        end
      else code_blocks min_lines file_path (Py.readlines text)
  end.

Definition error_line (message : string) : text :=
  [Str Colors.RED; Str "✗ "; Str message; Str Colors.NC].

Definition info_line (message : string) : text :=
  [Str Colors.CYAN; Str message; Str Colors.NC].

Definition functions_warning (file_path : string) (e : exn) : text :=
  if is_SyntaxError e then
    error_line ("Syntax error in " +:+ file_path +:+ ", skipping")
  else error_line ("Error processing " +:+ file_path +:+ ": " +:+ exn_str e).

(** The lines [extract] prints for a file. *)
Definition extract_output (use_functions : bool) (file_path : string) : stdout :=
  match read_text W file_path with
  | Err e =>
      if use_functions then [functions_warning file_path e]
      else [error_line ("Error reading " +:+ file_path +:+ ": " +:+ exn_str e)]
  | Ok text =>
      if use_functions then
        match ast_parse W text file_path with
        | Err e => [functions_warning file_path e]
        | Ok _ => []
        end
      else []
  end.

(** All pairs of a list, each with the earlier element first, as the two
    index loops of the exact pass list them. *)
Fixpoint pairs_from (l : list obj) : list DuplicatePair :=
  match l with
  | [] => []
  | x :: l' => map (fun y => (x, y, 1%Q)) l' ++ pairs_from l'
  end.

Definition hash_groups_of (objs : list obj) : list (string * list obj) :=
  fold_left (fun groups block => group_append (hash block.2) block groups)
    objs [].

(** The pairs the exact pass appends. *)
Definition exact_pairs (objs : list obj) : list DuplicatePair :=
  flat_map (fun group : string * list obj =>
              if (1 <? Z.of_nat (length group.2))%Z then pairs_from group.2
              else [])
    (hash_groups_of objs).

(** The store after one step of the similarity pass. *)
Definition similarity_step_frame (block1 block2 : obj) (fr : frame) : frame :=
  if same_file_overlap block1.2 block2.2 then fr
  else if bool_decide (pair_key block1.2 block2.2 ∈ seen_pairs fr) then fr
  else
    let similarity := calculate_similarity block1.2 block2.2 in
    if Qle_bool (similarity_threshold (self fr)) similarity && Qltb similarity 1
    then add_seen (pair_key block1.2 block2.2)
           (on_self (append_duplicate (block1, block2, similarity)) fr)
    else fr.

Definition later_objs (objs : list obj) (block1 : obj) : list obj :=
  Py.slice objs (Z.of_nat block1.1 + 1) (Z.of_nat (length objs)).

Definition similarity_outer_frame (objs : list obj) (block1 : obj) (fr : frame)
  : frame :=
  fold_left (fun fr block2 => similarity_step_frame block1 block2 fr)
    (later_objs objs block1) fr.

Definition similarity_pass_frame (objs : list obj) (fr : frame) : frame :=
  fold_left (fun fr block1 => similarity_outer_frame objs block1 fr) objs fr.

Definition progress_output (objs : list obj) (block1 : obj) : stdout :=
  let i := Z.of_nat block1.1 in
  if (i mod 100 =? 0)%Z && (0 <? i)%Z then
    [info_line ("Progress: " +:+ Py.str i +:+ "/"
                +:+ Py.str (Z.of_nat (length objs)) +:+ " blocks analyzed")]
  else [].

(** [self.blocks] once the files are read. *)
Definition found_blocks (files : list string) (use_functions : bool) (fr : frame)
  : list CodeBlock :=
  blocks (self fr)
  ++ flat_map (extracted use_functions (min_lines (self fr))) files.

(** The store [find_duplicates] leaves. *)
Definition found (files : list string) (use_functions : bool) (fr : frame)
  : frame :=
  let det := self fr in
  let blocks' := found_blocks files use_functions fr in
  let objs := Py.enumerate blocks' in
  similarity_pass_frame objs
    (mkFrame
       (mkDetector (min_lines det) (similarity_threshold det) blocks'
          (duplicates det ++ exact_pairs objs))
       ∅).

(** The lines [find_duplicates] prints. *)
Definition found_output (files : list string) (use_functions : bool) (fr : frame)
  : stdout :=
  let objs := Py.enumerate (found_blocks files use_functions fr) in
  [info_line ("Analyzing " +:+ Py.str (Z.of_nat (length files))
              +:+ " Python files...")]
  ++ flat_map (extract_output use_functions) files
  ++ [info_line ("Found " +:+ Py.str (Z.of_nat (length objs))
                 +:+ " code blocks to analyze")]
  ++ flat_map (progress_output objs) objs.

(** The lines of one entry of the report. *)
Definition entry_lines (entry : nat * DuplicatePair) : stdout :=
  let idx := Z.of_nat (S entry.1) in
  let similarity := dp_score entry.2 in
  [ [Str (NL +:+ Py.str idx +:+ ". Similarity: "); Pct 1 similarity];
    [Str ("   Location 1: " +:+ CodeBlock_repr (dp_block1 entry.2))];
    [Str ("   Location 2: " +:+ CodeBlock_repr (dp_block2 entry.2))];
    if Qeq_bool similarity 1 then
      [Str ("   " +:+ Colors.RED +:+ "EXACT DUPLICATE" +:+ Colors.NC)]
    else
      [Str ("   " +:+ Colors.YELLOW +:+ "SIMILAR CODE ("); Pct 1 similarity;
       Str (")" +:+ Colors.NC)] ].

(** The lines of one remediation task. *)
Definition task_lines (d : DuplicatePair) : stdout :=
  let block1 := dp_block1 d in
  let block2 := dp_block2 d in
  if Qeq_bool (dp_score d) 1 then
    [ [Str ("  [ ] Extract duplicate code at lines "
            +:+ Py.str (start_line block1) +:+ "-" +:+ Py.str (end_line block1)
            +:+ " to shared function")];
      [Str ("      Also found in: " +:+ file_path block2)] ]
  else
    [ [Str ("  [ ] Review similar code at lines "
            +:+ Py.str (start_line block1) +:+ "-" +:+ Py.str (end_line block1))];
      [Str ("      Similar to: " +:+ file_path block2 +:+ ":"
            +:+ Py.str (start_line block2) +:+ "-" +:+ Py.str (end_line block2))] ].

Definition file_groups_of (sorted_dupes : list DuplicatePair)
  : list (string * list DuplicatePair) :=
  fold_left (fun groups d => group_append (file_path (dp_block1 d)) d groups)
    sorted_dupes [].

Definition report_head (n : nat) : stdout :=
  [ [Str Colors.RED;
     Str (NL +:+ "✗ Found " +:+ Py.str (Z.of_nat n) +:+ " duplicate code blocks");
     Str Colors.NC];
    [Str (NL +:+ repeat_string "=" 80)];
    [Str "DUPLICATION REPORT"];
    [Str (repeat_string "=" 80)] ].

Definition tasks_head : stdout :=
  [ [Str (NL +:+ repeat_string "=" 80)];
    [Str "REMEDIATION TASKS"];
    [Str (repeat_string "=" 80)] ].

(** The lines [print_report] prints. *)
Definition report_output (self : DuplicationDetector) : stdout :=
  match duplicates self with
  | [] =>
      [ [Str Colors.GREEN; Str (NL +:+ "✓ No significant code duplication found!");
         Str Colors.NC] ]
  | _ :: _ =>
      let sorted_dupes := sorted_desc (duplicates self) in
      report_head (length (duplicates self))
      ++ flat_map entry_lines (Py.enumerate sorted_dupes)
      ++ tasks_head
      ++ flat_map (fun group : string * list DuplicatePair =>
                     [Str (NL +:+ Colors.CYAN +:+ group.1 +:+ Colors.NC)]
                     :: flat_map task_lines group.2)
           (file_groups_of sorted_dupes)
  end.

Definition root_of (args : args) : string :=
  match arg_path args with
  | Some p => resolve W p
  | None => project_root W
  end.

(** The lines [main] prints before it looks for the files. *)
Definition banner (args : args) : stdout :=
  [ info_line "DRY (Don't Repeat Yourself) Enforcement Tool";
    info_line (repeat_string "=" 50);
    [Str ("Analyzing: " +:+ root_of args)];
    [Str ("Min lines: " +:+ Py.str (arg_min_lines args))];
    [Str "Similarity threshold: "; Pct 0 (arg_similarity args)];
    [Str ("Mode: " +:+ (if arg_functions_only args then "Functions only"
                        else "All code blocks"))];
    [] ].

(** A detector as [main] makes it, with the locals of [find_duplicates]. *)
Definition fresh_frame (min_lines : Z) (similarity_threshold : Q) : frame :=
  mkFrame (DuplicationDetector_init min_lines similarity_threshold) ∅.

(** The detector after [find_duplicates] ran once on a fresh detector. *)
Definition run_detector (min_lines : Z) (similarity_threshold : Q)
    (files : list string) (use_functions : bool) : DuplicationDetector :=
  self (find_duplicates files use_functions
          (fresh_frame min_lines similarity_threshold, [])).2.1.

(** The exception that makes [extract] skip a file, if any. *)
Definition extraction_failure (use_functions : bool) (file_path : string)
  : option exn :=
  match read_text W file_path with
  | Err e => Some e
  | Ok text =>
      if use_functions then
        match ast_parse W text file_path with
        | Err e => Some e
        | Ok _ => None
        end
      else None
  end.

(** The warning [extract] prints for a file it skips. *)
Definition failure_warning (use_functions : bool) (file_path : string) (e : exn)
  : text :=
  if use_functions then functions_warning file_path e
  else error_line ("Error reading " +:+ file_path +:+ ": " +:+ exn_str e).

End Detector.

(** * Definitions for the proofs *)

(** A computation that returns, changes the store by [g] and prints
    [o]. *)
Definition runs_as {L} (m : M L unit) (g : L -> L) (o : L -> stdout) : Prop :=
  forall l out, m (l, out) = (Returned tt, (g l, out ++ o l)).

(** What a loop prints when each turn changes the store by [g] and
    prints [o]. *)
Fixpoint loop_output {L A} (g : A -> L -> L) (o : A -> L -> stdout)
    (xs : list A) (l : L) : stdout :=
  match xs with
  | [] => []
  | x :: xs' => o x l ++ loop_output g o xs' (g x l)
  end.

(** The pair the exact pass makes of the elements at [i] and [j]. *)
Definition pair_at (l : list obj) (i j : nat) : list DuplicatePair :=
  match l !! i, l !! j with
  | Some a, Some b => [(a, b, 1%Q)]
  | _, _ => []
  end.

(** The positions of the two objects of a pair, and the same without
    their order. *)
Definition dp_ids (d : DuplicatePair) : nat * nat := (dp_id1 d, dp_id2 d).

Definition dp_unordered (d : DuplicatePair) : nat * nat :=
  (Nat.min (dp_id1 d) (dp_id2 d), Nat.max (dp_id1 d) (dp_id2 d)).

(** The key under which the similarity pass remembers a pair. *)
Definition dp_key (d : DuplicatePair) : string * string :=
  pair_key (dp_block1 d) (dp_block2 d).

(** The guards a pair recorded by the similarity pass went through. *)
Definition sim_recorded (W : World) (threshold : Q) (d : DuplicatePair) : Prop :=
  same_file_overlap (dp_block1 d) (dp_block2 d) = false
  /\ dp_score d = calculate_similarity W (dp_block1 d) (dp_block2 d)
  /\ (threshold <= dp_score d)%Q
  /\ (dp_score d < 1)%Q.

(** [fr'] is [fr] after the similarity pass went through the candidate
    pairs [cands] and recorded [new]. *)
Definition sim_trace (W : World) (fr fr' : frame) (new : list DuplicatePair)
    (cands : list (obj * obj)) : Prop :=
  self fr' = append_duplicates new (self fr)
  /\ seen_pairs fr' = seen_pairs fr ∪ list_to_set (map dp_key new)
  /\ sublist (map fst new) cands
  /\ Forall (sim_recorded W (similarity_threshold (self fr))) new
  /\ NoDup (map dp_key new)
  /\ Forall (fun d => dp_key d ∉ seen_pairs fr) new.

(** The candidate pairs of the similarity pass, in the order of the
    loops. *)
Definition candidates (objs : list obj) (todo : list obj) : list (obj * obj) :=
  flat_map (fun block1 => map (fun block2 => (block1, block2))
                            (drop (S block1.1) objs)) todo.

(** The positions of the objects of a list increase. *)
Definition ids_sorted (l : list obj) : Prop := StronglySorted lt (map fst l).

Definition same_hash (h : string) (o : obj) : Prop := hash o.2 = h.

#[global] Instance same_hash_dec h o : Decision (same_hash h o) :=
  decide (hash o.2 = h).

(** [groups] is the dictionary [hash_groups] once the objects [p] are in:
    one entry per fingerprint, holding the objects of that fingerprint in
    their order. *)
Definition groups_of (p : list obj) (groups : list (string * list obj)) : Prop :=
  NoDup groups.*1
  /\ Forall (fun g : string * list obj => g.2 = filter (same_hash g.1) p) groups.

(** The digest is taken as free of collisions. *)
Definition md5_collision_free (W : World) : Prop :=
  forall a b, md5_hexdigest W a = md5_hexdigest W b -> a = b.

(** difflib matches a sequence with itself in full. *)
Definition matching_reflexive (W : World) : Prop :=
  forall s, matching_size W s s = Py.len s.

(** The fingerprint of a block is the digest of its content. *)
Definition hash_of_content (W : World) (b : CodeBlock) : Prop :=
  hash b = md5_hexdigest W (content b).

(** The invariant of a recorded pair: score 1.0 goes with equal
    fingerprints, and a score below 1.0 is a similarity ratio of the
    normalized contents that reaches the threshold. *)
Definition score_invariant (W : World) (threshold : Q) (d : DuplicatePair)
  : Prop :=
  ((dp_score d == 1)%Q <-> hash (dp_block1 d) = hash (dp_block2 d))
  /\ ((dp_score d < 1)%Q ->
      (threshold <= dp_score d)%Q
      /\ dp_score d
         = ratio W (Py.join " " (Py.split (content (dp_block1 d))))
             (Py.join " " (Py.split (content (dp_block2 d))))).

#[global] Instance Qeq_decision (x y : Q) : Decision (x == y)%Q := Qeq_dec x y.

(** The order of the report: the score does not increase. *)
Definition score_ge (a b : DuplicatePair) : Prop := (dp_score b <= dp_score a)%Q.

(** ** The comment filter as the specification words it

    "More than half of its non-blank lines are comment-only": a line is
    blank when it holds only whitespace, and comment-only when its first
    character after the indentation is the hash sign. *)

Definition is_blank (line : string) : bool :=
  (Py.len (Py.strip line) =? 0)%nat.

Definition is_comment_only (line : string) : bool :=
  match Py.lstrip line with
  | String c _ => Ascii.eqb c "#"
  | EmptyString => false
  end.

Definition spec_comment_heavy (stripped : string) : bool :=
  let non_blank :=
    List.filter (fun line => negb (is_blank line)) (Py.splitlines stripped) in
  (length non_blank <? 2 * length (List.filter is_comment_only non_blank))%nat.

(** ** The text of a block in its file

    The raw text of a block, as the specification words it: the lines
    [start_line] to [end_line] of the file as read, line ends included
    and no character removed. *)

Definition raw_content (W : World) (b : CodeBlock) : string :=
  match read_text W (file_path b) with
  | Ok text =>
      window_content (Py.readlines text) (start_line b - 1)
        (end_line b - start_line b + 1)
  | Err _ => EmptyString
  end.

(** The lines of a definition as function mode joins them: the line ends
    are dropped and a newline stands between two lines. *)
Definition function_text (W : World) (b : CodeBlock) : string :=
  match read_text W (file_path b) with
  | Ok text =>
      Py.join NL (Py.slice (Py.splitlines text) (start_line b - 1) (end_line b))
  | Err _ => EmptyString
  end.

(** The text a block of a run stores and fingerprints: window mode strips
    the raw text of the window, function mode joins the lines of the
    definition. *)
Definition stored_text (W : World) (use_functions : bool) (b : CodeBlock)
  : string :=
  if use_functions then function_text W b else Py.strip (raw_content W b).

(** ** Sample files and collaborators

    A small world to run the detector in: the digest of a text is the text
    itself (no collisions), the matcher counts the common prefix, every
    parse fails, and the file system holds the files below. *)

Module Sample.

Definition line (s : string) : string := s +:+ NL.

(** Six times the same line. *)
Definition a_py : string := repeat_string (line "x = 1") 6.

(** Five lines, the last one unlike [a_py]. *)
Definition b_py : string := repeat_string (line "x = 1") 4 +:+ line "x = 2".

(** A blank line, then five statements. *)
Definition blank_py : string :=
  NL +:+ line "alpha = 1" +:+ line "beta = 2" +:+ line "gamma = 3"
  +:+ line "delta = 4" +:+ line "epsilon = 5".

(** Five statements, three of them with a trailing comment. *)
Definition c_py : string :=
  line "a = 1  # one" +:+ line "b = 2  # two" +:+ line "c = 3  # three"
  +:+ line "d = 4" +:+ line "e = 5".

(** Fifty-one lines. *)
Definition long_py : string := repeat_string (line "x = 1") 51.

Definition read_text (path : string) : result string :=
  if String.eqb path "a.py" then Ok a_py
  else if String.eqb path "b.py" then Ok b_py
  else if String.eqb path "blank.py" then Ok blank_py
  else if String.eqb path "c.py" then Ok c_py
  else if String.eqb path "long.py" then Ok long_py
  else Err (OSError "[Errno 2] No such file or directory").

Definition ast_parse (content filename : string) : result (list ast_node) :=
  Err (SyntaxError "invalid syntax").

Fixpoint common_prefix (a b : string) : nat :=
  match a, b with
  | String c a', String d b' =>
      if Ascii.eqb c d then S (common_prefix a' b') else 0
  | _, _ => 0
  end.

Definition digest (s : string) : string := s.

Definition rglob_py (root : string) : list string :=
  if String.eqb root "empty" then [] else ["a.py"; "b.py"].

Definition world : World :=
  mkWorld digest read_text ast_parse common_prefix rglob_py (fun p => p) "repo".

Definition detector : DuplicationDetector := DuplicationDetector_init 5 (8 # 10).

Definition a_lines : list string := Py.readlines a_py.
Definition c_lines : list string := Py.readlines c_py.
Definition long_lines : list string := Py.readlines long_py.

End Sample.

(** ** Further definitions *)

(** A candidate pair that the guards of the similarity pass let through. *)
Definition passes_guards (W : World) (threshold : Q) (c : obj * obj) : Prop :=
  same_file_overlap c.1.2 c.2.2 = false
  /\ (threshold <= calculate_similarity W c.1.2 c.2.2)%Q
  /\ (calculate_similarity W c.1.2 c.2.2 < 1)%Q.

(** The line [print_report] prints when nothing was recorded. *)
Definition success_line : text :=
  [Str Colors.GREEN; Str (NL +:+ "✓ No significant code duplication found!");
   Str Colors.NC].

(** What the dictionary [file_groups] holds once the pairs [l] are in: one
    entry per file, no entry empty, each pair under the file of its first
    block, all pairs in. *)
Definition file_groups_hold (l : list DuplicatePair)
    (groups : list (string * list DuplicatePair)) : Prop :=
  NoDup groups.*1
  /\ Forall (fun g : string * list DuplicatePair =>
               g.2 <> [] /\ Forall (fun d => file_path (dp_block1 d) = g.1) g.2)
       groups
  /\ concat groups.*2 ≡ₚ l.

(** A world whose parser knows one file of two functions. *)
Module SampleFunctions.

Definition f_py : string :=
  Sample.line "def f(x):" +:+ Sample.line "    a = x + 1"
  +:+ Sample.line "    b = a * 2" +:+ Sample.line "    c = b - 3"
  +:+ Sample.line "    d = c / 4" +:+ Sample.line "    return d"
  +:+ Sample.line "async def g():" +:+ Sample.line "    pass".

Definition read_text (path : string) : result string :=
  if String.eqb path "f.py" then Ok f_py else Sample.read_text path.

Definition ast_parse (content filename : string) : result (list ast_node) :=
  if String.eqb content f_py then
    Ok [OtherNode; FunctionDef 1 (Some 6%Z); AsyncFunctionDef 7 (Some 8%Z); OtherNode]
  else Err (SyntaxError "invalid syntax").

Definition world : World :=
  mkWorld Sample.digest read_text ast_parse Sample.common_prefix Sample.rglob_py
    (fun p => p) "repo".

End SampleFunctions.

(** * Lemmas *)
(** ** The monad *)

Ltac munfold :=
  unfold mbind, M_bind, mret, M_ret, bind, ret, lift, modify, get, print,
    print_error, print_info, print_colored, try_except, call, sys_exit, raise in *.

Lemma for_each_runs {L A} (xs : list A) (body : A -> M L unit)
    (g : A -> L -> L) (o : A -> L -> stdout) :
  (forall x, x ∈ xs -> runs_as (body x) (g x) (o x)) ->
  runs_as (for_each xs body)
    (fun l => fold_left (fun l x => g x l) xs l) (loop_output g o xs).
Proof.
  induction xs as [|x xs IH]; intros H l out; simpl.
  - munfold. by rewrite app_nil_r.
  - unfold mbind, M_bind, bind. rewrite (H x) by left.
    rewrite IH by (intros; apply H; by right).
    by rewrite <- app_assoc.
Qed.

Lemma loop_output_const {L A} (g : A -> L -> L) (o : A -> stdout) xs l :
  loop_output g (fun x _ => o x) xs l = flat_map o xs.
Proof.
  revert l. induction xs as [|x xs IH]; intros l; simpl; [done|]. by rewrite IH.
Qed.

Lemma loop_output_nil {L A} (g : A -> L -> L) (xs : list A) l :
  loop_output g (fun _ _ => []) xs l = [].
Proof. revert l. induction xs as [|x xs IH]; intros l; simpl; auto. Qed.

Lemma fold_left_app_flat_map {A B} (f : A -> list B) xs (l : list B) :
  fold_left (fun l x => l ++ f x) xs l = l ++ flat_map f xs.
Proof.
  revert l. induction xs as [|x xs IH]; intros l; simpl.
  - by rewrite app_nil_r.
  - by rewrite IH, app_assoc.
Qed.

Lemma flat_map_flat_map_pairs {A B C} (f : A -> list B) (h : A -> B -> list C) xs :
  flat_map (fun x => flat_map (h x) (f x)) xs
  = flat_map (fun c : A * B => h c.1 c.2) (flat_map (fun x => map (fun y => (x, y)) (f x)) xs).
Proof.
  induction xs as [|x xs IH]; simpl; [done|].
  rewrite flat_map_app, <- IH. f_equal.
  induction (f x) as [|y ys IHy]; simpl; [done|]. by rewrite IHy.
Qed.

Section Extraction.
Variable W : World.

Lemma splitlines_nonempty s : s <> EmptyString -> Py.splitlines s <> [].
Proof.
  destruct s as [|c s]; [done|]. intros _. simpl.
  destruct (Py.is_linebreak c).
  - destruct s; [done|]. destruct (_ && _); done.
  - unfold Py.cons_to_first. destruct (Py.splitlines s); done.
Qed.

Lemma window_step_runs path lines i w :
  runs_as (window_step W path lines i w)
    (fun blocks => blocks ++ window_blocks W path lines i w) (fun _ => []).
Proof.
  intros l out. unfold window_step, window_blocks, window_kept, window_block, window_content.
  set (stripped := Py.strip _).
  destruct (Py.len stripped <? 20)%nat eqn:Hlen; simpl.
  - munfold. by rewrite !app_nil_r.
  - unfold truediv.
    destruct (length (Py.splitlines stripped) =? 0)%nat eqn:Hn.
    + exfalso. apply Nat.eqb_eq in Hn. apply Nat.ltb_ge in Hlen.
      apply length_zero_iff_nil in Hn. revert Hn. apply splitlines_nonempty.
      intros ->. simpl in Hlen. lia.
    + munfold. simpl. destruct (Qgtb _ _); simpl; by rewrite !app_nil_r.
Qed.

Lemma code_blocks_loops_run min_lines path lines :
  let n := Z.of_nat (length lines) in
  runs_as
    (for_each (Py.range 0 (n - min_lines + 1)) (fun i =>
       for_each (Py.range min_lines (Z.min 50 (n - i + 1)))
         (fun window_size => window_step W path lines i window_size)))
    (fun blocks =>
       blocks ++ flat_map (fun c => window_blocks W path lines c.1 c.2)
                   (candidate_windows min_lines n))
    (fun _ => []).
Proof.
  intros n l out.
  rewrite (for_each_runs _ _
             (fun i blocks => blocks ++ flat_map (window_blocks W path lines i)
                                (Py.range min_lines (Z.min 50 (n - i + 1))))
             (fun _ _ => [])).
  - rewrite loop_output_nil, fold_left_app_flat_map. unfold candidate_windows.
    by rewrite <- flat_map_flat_map_pairs.
  - intros i _ l' out'.
    rewrite (for_each_runs _ _ (fun w blocks => blocks ++ window_blocks W path lines i w)
               (fun _ _ => [])).
    + by rewrite loop_output_nil, fold_left_app_flat_map.
    + intros w _. apply window_step_runs.
Qed.

Lemma function_step_runs self path content node :
  runs_as (function_step W self path content node)
    (fun blocks => blocks ++ function_blocks W (min_lines self) path content node)
    (fun _ => []).
Proof.
  intros l out. unfold function_step, function_blocks.
  destruct node as [lineno e|lineno e|]; munfold; simpl;
    try destruct (_ <=? _)%Z; simpl; by rewrite !app_nil_r.
Qed.

(** [extract] returns the blocks [extracted] gives, leaves them in its
    store and prints [extract_output]; no exception leaves it. *)
Lemma extract_run uf self path l out :
  extract W uf self path (l, out)
  = (Returned (extracted W uf (min_lines self) path),
     (extracted W uf (min_lines self) path, out ++ extract_output W uf path)).
Proof.
  unfold extract, extracted, extract_output. destruct uf.
  - unfold extract_functions. munfold. simpl.
    destruct (read_text W path) as [text|e]; simpl.
    + destruct (ast_parse W text path) as [tree|e]; simpl.
      * rewrite (for_each_runs _ _
                   (fun node blocks => blocks ++ function_blocks W (min_lines self) path text node)
                   (fun _ _ => [])) by (intros; apply function_step_runs).
        by rewrite loop_output_nil, fold_left_app_flat_map.
      * unfold functions_warning, error_line. destruct (is_SyntaxError e); done.
    + unfold functions_warning, error_line. destruct (is_SyntaxError e); done.
  - unfold extract_code_blocks. munfold. simpl.
    destruct (read_text W path) as [text|e]; simpl; [|done].
    unfold code_blocks.
    destruct (_ <? _)%Z; simpl; [by rewrite app_nil_r|].
    pose proof (code_blocks_loops_run (min_lines self) path (Py.readlines text)) as H.
    simpl in H. by rewrite H.
Qed.

End Extraction.

Lemma elem_of_range lo hi x : x ∈ Py.range lo hi <-> (lo <= x < hi)%Z.
Proof.
  unfold Py.range. rewrite list_elem_of_In, in_map_iff. split.
  - intros (k & <- & Hk). apply in_seq in Hk. lia.
  - intros H. exists (Z.to_nat (x - lo)). split; [lia|]. apply in_seq. lia.
Qed.

Lemma range_0_nat n : Py.range 0 (Z.of_nat n) = map Z.of_nat (seq 0 n).
Proof.
  unfold Py.range. rewrite Z.sub_0_r, Nat2Z.id. apply map_ext. intros; lia.
Qed.

Lemma range_nat a n :
  Py.range (Z.of_nat a) (Z.of_nat n) = map Z.of_nat (seq a (n - a)).
Proof.
  unfold Py.range. replace (Z.to_nat (Z.of_nat n - Z.of_nat a)) with (n - a)%nat by lia.
  generalize (n - a)%nat as k. intros k.
  assert (forall s, map (fun k0 => (Z.of_nat a + Z.of_nat k0)%Z) (seq s k)
                    = map Z.of_nat (seq (a + s) k)) as H.
  { induction k as [|k IH]; intros s; simpl; [done|].
    f_equal; [lia|]. rewrite IH. f_equal. f_equal. lia. }
  rewrite H. by rewrite Nat.add_0_r.
Qed.

Lemma flat_map_pair_at_0 x l n :
  length l = n ->
  flat_map (fun j => pair_at (x :: l) 0 j) (seq 1 n) = map (fun y => (x, y, 1%Q)) l.
Proof.
  intros <-. rewrite <- seq_shift, flat_map_concat_map, map_map. unfold pair_at. simpl.
  induction l as [|y l IH]; simpl; [done|].
  f_equal. rewrite <- seq_shift, map_map. simpl. apply IH.
Qed.

Lemma pairs_from_index l :
  flat_map (fun i => flat_map (fun j => pair_at l i j) (seq (S i) (length l - S i)))
    (seq 0 (length l))
  = pairs_from l.
Proof.
  induction l as [|x l IH]; simpl; [done|].
  rewrite Nat.sub_0_r, flat_map_pair_at_0 by done. f_equal.
  rewrite <- IH, <- seq_shift, flat_map_concat_map, map_map, <- flat_map_concat_map.
  apply flat_map_ext. intros i.
  rewrite <- seq_shift, flat_map_concat_map, map_map, <- flat_map_concat_map.
  done.
Qed.

Lemma on_self_append_app ds1 ds2 fr :
  on_self (append_duplicates ds2) (on_self (append_duplicates ds1) fr)
  = on_self (append_duplicates (ds1 ++ ds2)) fr.
Proof. destruct fr as [[] ?]. unfold on_self, append_duplicates. simpl. by rewrite app_assoc. Qed.

Lemma on_self_append_nil fr : on_self (append_duplicates []) fr = fr.
Proof. destruct fr as [[] ?]. unfold on_self, append_duplicates. simpl. by rewrite app_nil_r. Qed.

Lemma fold_left_append_duplicates {A} (f : A -> list DuplicatePair) xs fr :
  fold_left (fun fr x => on_self (append_duplicates (f x)) fr) xs fr
  = on_self (append_duplicates (flat_map f xs)) fr.
Proof.
  revert fr. induction xs as [|x xs IH]; intros fr; simpl.
  - by rewrite on_self_append_nil.
  - by rewrite IH, on_self_append_app.
Qed.

Lemma index_lookup {A} (l : list A) (i : nat) x :
  l !! i = Some x -> index l (Z.of_nat i) = Ok x.
Proof.
  intros H. unfold index.
  assert ((Z.of_nat i <? 0)%Z = false) as E by (apply Z.ltb_ge; lia).
  rewrite E. cbv zeta. rewrite E, Nat2Z.id, H. done.
Qed.

Section Passes.
Variable W : World.

Lemma exact_pair_step_runs blocks (i j : nat) :
  (i < length blocks)%nat -> (j < length blocks)%nat ->
  runs_as (exact_pair_step blocks (Z.of_nat i) (Z.of_nat j))
    (on_self (append_duplicates (pair_at blocks i j))) (fun _ => []).
Proof.
  intros Hi Hj fr out. unfold exact_pair_step, pair_at.
  destruct (lookup_lt_is_Some_2 blocks i Hi) as [a Ha].
  destruct (lookup_lt_is_Some_2 blocks j Hj) as [b Hb].
  rewrite Ha, Hb. munfold. rewrite (index_lookup _ _ _ Ha), (index_lookup _ _ _ Hb).
  simpl. by rewrite app_nil_r.
Qed.

Lemma exact_group_step_runs group :
  runs_as (exact_group_step group)
    (on_self (append_duplicates
       (if (1 <? Z.of_nat (length group.2))%Z then pairs_from group.2 else [])))
    (fun _ => []).
Proof.
  intros fr out. unfold exact_group_step.
  destruct (1 <? _)%Z.
  2:{ munfold. by rewrite on_self_append_nil, app_nil_r. }
  set (bs := group.2). set (n := length bs).
  rewrite (for_each_runs _ _
    (fun i => on_self (append_duplicates
        (flat_map (fun j => pair_at bs (Z.to_nat i) j) (seq (S (Z.to_nat i)) (n - S (Z.to_nat i))))))
    (fun _ _ => [])).
  - rewrite loop_output_nil, fold_left_append_duplicates. f_equal. f_equal. f_equal.
    rewrite range_0_nat, flat_map_concat_map, map_map, <- flat_map_concat_map.
    rewrite <- pairs_from_index. f_equal. apply flat_map_ext. intros i. by rewrite Nat2Z.id.
  - intros i Hi fr' out'. apply elem_of_range in Hi.
    replace (i + 1)%Z with (Z.of_nat (S (Z.to_nat i))) by lia.
    rewrite range_nat.
    rewrite (for_each_runs _ _
      (fun j => on_self (append_duplicates (pair_at bs (Z.to_nat i) (Z.to_nat j))))
      (fun _ _ => [])).
    + rewrite loop_output_nil, fold_left_append_duplicates. f_equal. f_equal. f_equal.
      rewrite flat_map_concat_map, map_map, <- flat_map_concat_map.
      f_equal. apply flat_map_ext. intros j. by rewrite Nat2Z.id.
    + intros j Hj. rewrite list_elem_of_In, in_map_iff in Hj.
      destruct Hj as (k & <- & Hk). apply in_seq in Hk.
      rewrite Nat2Z.id. rewrite <- (Z2Nat.id i) at 1 by lia.
      apply exact_pair_step_runs; fold n; lia.
Qed.

Lemma exact_pass_runs objs :
  runs_as (for_each (hash_groups_of objs) exact_group_step)
    (on_self (append_duplicates (exact_pairs objs))) (fun _ => []).
Proof.
  intros fr out.
  rewrite (for_each_runs _ _ _ (fun _ _ => []) (fun g _ => exact_group_step_runs g)).
  by rewrite loop_output_nil, fold_left_append_duplicates.
Qed.

Lemma similarity_step_runs block1 block2 :
  runs_as (similarity_step W block1 block2)
    (similarity_step_frame W block1 block2) (fun _ => []).
Proof.
  intros fr out. unfold similarity_step, similarity_step_frame.
  destruct (same_file_overlap _ _); munfold; simpl; [by rewrite app_nil_r|].
  destruct (bool_decide _); [by rewrite app_nil_r|].
  destruct (_ && _); simpl; by rewrite ?app_nil_r.
Qed.

Lemma similarity_outer_step_runs objs block1 :
  runs_as (similarity_outer_step W objs block1)
    (similarity_outer_frame W objs block1) (fun _ => progress_output objs block1).
Proof.
  intros fr out. unfold similarity_outer_step, similarity_outer_frame, progress_output,
    later_objs, info_line.
  pose proof (for_each_runs
    (Py.slice objs (Z.of_nat block1.1 + 1) (Z.of_nat (length objs)))
    (fun block2 => similarity_step W block1 block2)
    (fun block2 => similarity_step_frame W block1 block2) (fun _ _ => [])
    (fun b _ => similarity_step_runs block1 b)) as H.
  destruct (_ && _); munfold; simpl; rewrite H, loop_output_nil, ?app_nil_r; done.
Qed.

Lemma similarity_pass_runs objs :
  runs_as (for_each objs (similarity_outer_step W objs))
    (similarity_pass_frame W objs) (fun _ => flat_map (progress_output objs) objs).
Proof.
  intros fr out.
  rewrite (for_each_runs _ _ _ _ (fun b _ => similarity_outer_step_runs objs b)).
  by rewrite loop_output_const.
Qed.

Lemma extract_loop_runs uf files :
  runs_as
    (for_each files (fun file_path =>
       fr ← get;
       r ← call [] (extract W uf (self fr) file_path);
       modify (on_self (extend_blocks r.1))))
    (fun fr => on_self (extend_blocks
                 (flat_map (extracted W uf (min_lines (self fr))) files)) fr)
    (fun _ => flat_map (extract_output W uf) files).
Proof.
  intros fr out.
  rewrite (for_each_runs _ _
    (fun path fr => on_self (extend_blocks (extracted W uf (min_lines (self fr)) path)) fr)
    (fun path _ => extract_output W uf path)).
  - rewrite loop_output_const. f_equal. f_equal.
    clear out. revert fr. induction files as [|f files IH]; intros fr; simpl.
    + destruct fr as [[] ?]. unfold on_self, extend_blocks. simpl. by rewrite app_nil_r.
    + rewrite IH. destruct fr as [[] ?]. unfold on_self, extend_blocks. simpl.
      by rewrite app_assoc.
  - intros path _ fr' out'. munfold. simpl. rewrite extract_run. done.
Qed.

(** [find_duplicates] returns: no exception leaves it, whatever the files
    are; it leaves the store [found] and prints [found_output]. *)
Lemma bind_returned {L A B} (m : M L A) (k : A -> M L B) s a s' :
  m s = (Returned a, s') -> (m ≫= k) s = k a s'.
Proof. intros H. unfold mbind, M_bind, bind. by rewrite H. Qed.

Lemma seq_runs {L B} (m : M L unit) (k : M L B) g o l out :
  runs_as m g o -> (m ;; k) (l, out) = k (g l, out ++ o l).
Proof. intros H. apply bind_returned with (a := tt). apply H. Qed.

Lemma print_info_runs {L} msg :
  runs_as (L := L) (print_info [Str msg]) (fun l => l) (fun _ => [info_line msg]).
Proof. intros l out. done. Qed.

Lemma find_duplicates_run files uf fr out :
  find_duplicates W files uf (fr, out)
  = (Returned tt, (found W files uf fr, out ++ found_output W files uf fr)).
Proof.
  unfold find_duplicates.
  rewrite (seq_runs _ _ _ _ _ _ (print_info_runs _)).
  rewrite (seq_runs _ _ _ _ _ _ (extract_loop_runs uf files)).
  erewrite bind_returned by reflexivity. cbv zeta.
  rewrite (seq_runs _ _ _ _ _ _ (print_info_runs _)).
  assert (Hex := exact_pass_runs). unfold hash_groups_of in Hex.
  rewrite (seq_runs _ _ _ _ _ _ (Hex _)). clear Hex.
  erewrite bind_returned by reflexivity.
  rewrite similarity_pass_runs.
  unfold found, found_output, found_blocks. simpl.
  rewrite !app_nil_r, <- !app_assoc. simpl.
  destruct fr as [[] ?]; simpl. done.
Qed.

End Passes.

Lemma slice_to_end {A} (l : list A) (k : nat) :
  Py.slice l (Z.of_nat k) (Z.of_nat (length l)) = drop k l.
Proof.
  unfold Py.slice, Py.slice_index.
  assert ((Z.of_nat k <? 0)%Z = false) as -> by (apply Z.ltb_ge; lia).
  assert ((Z.of_nat (length l) <? 0)%Z = false) as -> by (apply Z.ltb_ge; lia).
  rewrite Z.min_id.
  destruct (decide (k <= length l)%nat).
  - rewrite Z.min_l by lia. rewrite Nat2Z.id.
    apply take_ge. rewrite length_drop. lia.
  - rewrite Z.min_r by lia. rewrite Z.sub_diag. simpl.
    symmetry. apply drop_ge. lia.
Qed.

Lemma later_objs_drop objs (block1 : obj) :
  later_objs objs block1 = drop (S block1.1) objs.
Proof.
  unfold later_objs. replace (Z.of_nat block1.1 + 1)%Z with (Z.of_nat (S block1.1)) by lia.
  apply slice_to_end.
Qed.

Section Sim.
Variable W : World.

Lemma sim_trace_refl fr : sim_trace W fr fr [] [].
Proof.
  unfold sim_trace. destruct fr as [[] ?]. unfold append_duplicates. simpl.
  rewrite app_nil_r. repeat split; auto using NoDup_nil_2, sublist_nil.
  by rewrite union_empty_r_L.
Qed.

Lemma sim_trace_skip fr fr' new cands c :
  sim_trace W fr fr' new cands -> sim_trace W fr fr' new (c :: cands).
Proof.
  intros (H1 & H2 & H3 & H4 & H5 & H6). repeat split; auto.
  by apply sublist_cons.
Qed.

Lemma sim_trace_threshold fr fr' new cands :
  sim_trace W fr fr' new cands ->
  similarity_threshold (self fr') = similarity_threshold (self fr).
Proof. intros (H1 & _). rewrite H1. done. Qed.

Lemma sim_trace_app fr fr' fr'' new1 new2 c1 c2 :
  sim_trace W fr fr' new1 c1 -> sim_trace W fr' fr'' new2 c2 ->
  sim_trace W fr fr'' (new1 ++ new2) (c1 ++ c2).
Proof.
  intros Ha Hb. pose proof (sim_trace_threshold _ _ _ _ Ha) as Hthr.
  destruct Ha as (A1 & A2 & A3 & A4 & A5 & A6).
  destruct Hb as (B1 & B2 & B3 & B4 & B5 & B6).
  repeat split.
  - rewrite B1, A1. destruct (self fr). unfold append_duplicates. simpl.
    by rewrite app_assoc.
  - by rewrite B2, A2, map_app, list_to_set_app_L, (assoc_L (∪)).
  - rewrite map_app. by apply sublist_app.
  - rewrite Forall_app. split; [done|]. by rewrite <- Hthr.
  - rewrite map_app. apply NoDup_app. split; [done|]. split; [|done].
    intros k Hk1 Hk2. apply list_elem_of_fmap in Hk2 as (d & -> & Hd).
    rewrite Forall_forall in B6. apply (B6 d Hd). rewrite A2.
    apply elem_of_union_r. by apply elem_of_list_to_set.
  - rewrite Forall_app. split; [done|].
    rewrite Forall_forall in B6 |- *. intros d Hd Hin. apply (B6 d Hd).
    rewrite A2. by apply elem_of_union_l.
Qed.

Lemma similarity_step_trace block1 block2 fr :
  exists new, sim_trace W fr (similarity_step_frame W block1 block2 fr) new
                [(block1, block2)].
Proof.
  unfold similarity_step_frame.
  destruct (same_file_overlap _ _) eqn:Hov.
  { exists []. apply sim_trace_skip, sim_trace_refl. }
  destruct (bool_decide _) eqn:Hseen.
  { exists []. apply sim_trace_skip, sim_trace_refl. }
  destruct (_ && _) eqn:Hc.
  2:{ exists []. apply sim_trace_skip, sim_trace_refl. }
  apply andb_true_iff in Hc as [Hle Hlt].
  apply bool_decide_eq_false in Hseen.
  exists [(block1, block2, calculate_similarity W block1.2 block2.2)].
  repeat split; simpl.
  - by rewrite union_empty_r_L.
  - done.
  - constructor; [|constructor]. repeat split; simpl; auto.
    + by apply Qle_bool_iff.
    + unfold Qltb in Hlt. apply negb_true_iff in Hlt.
      apply Qnot_le_lt. intros H. apply Qle_bool_iff in H. congruence.
  - apply NoDup_singleton.
  - constructor; [done|constructor].
Qed.

Lemma similarity_outer_trace objs block1 fr :
  exists new, sim_trace W fr (similarity_outer_frame W objs block1 fr) new
                (map (fun block2 => (block1, block2)) (drop (S block1.1) objs)).
Proof.
  unfold similarity_outer_frame. rewrite later_objs_drop.
  generalize (drop (S block1.1) objs) as l. intros l. revert fr.
  induction l as [|b l IH]; intros fr; simpl.
  - exists []. apply sim_trace_refl.
  - destruct (similarity_step_trace block1 b fr) as [n1 H1].
    destruct (IH (similarity_step_frame W block1 b fr)) as [n2 H2].
    exists (n1 ++ n2). apply (sim_trace_app _ _ _ _ _ _ _ H1 H2).
Qed.

Lemma similarity_fold_trace objs todo fr :
  exists new,
    sim_trace W fr
      (fold_left (fun fr block1 => similarity_outer_frame W objs block1 fr) todo fr)
      new (candidates objs todo).
Proof.
  revert fr. induction todo as [|b l IH]; intros fr; simpl.
  - exists []. apply sim_trace_refl.
  - destruct (similarity_outer_trace objs b fr) as [n1 H1].
    destruct (IH (similarity_outer_frame W objs b fr)) as [n2 H2].
    exists (n1 ++ n2). apply (sim_trace_app _ _ _ _ _ _ _ H1 H2).
Qed.

Lemma similarity_pass_trace objs fr :
  exists new, sim_trace W fr (similarity_pass_frame W objs fr) new
                (candidates objs objs).
Proof. apply similarity_fold_trace. Qed.

End Sim.

Lemma enumerate_from_fst {A} k (l : list A) :
  map fst (Py.enumerate_from k l) = seq k (length l).
Proof. revert k. induction l as [|x l IH]; intros k; simpl; [done|]. by rewrite IH. Qed.

Lemma seq_sorted k n : StronglySorted lt (seq k n).
Proof.
  revert k. induction n as [|n IH]; intros k; simpl; constructor; [apply IH|].
  apply Forall_forall. intros x Hx. apply list_elem_of_In, in_seq in Hx. lia.
Qed.

Lemma enumerate_sorted (l : list CodeBlock) : ids_sorted (Py.enumerate l).
Proof. unfold ids_sorted, Py.enumerate. rewrite enumerate_from_fst. apply seq_sorted. Qed.

Lemma enumerate_from_lookup {A} k (l : list A) i x :
  (i, x) ∈ Py.enumerate_from k l -> (k <= i)%nat /\ l !! (i - k)%nat = Some x.
Proof.
  revert k. induction l as [|y l IH]; intros k H; simpl in H.
  - by apply elem_of_nil in H.
  - apply elem_of_cons in H as [[= -> ->]|H].
    + split; [lia|]. by rewrite Nat.sub_diag.
    + apply IH in H as [Hk Hl]. split; [lia|].
      replace (i - k)%nat with (S (i - S k)) by lia. done.
Qed.

Lemma enumerate_elem_of (l : list CodeBlock) (o : obj) :
  o ∈ Py.enumerate l -> l !! o.1 = Some o.2.
Proof.
  destruct o as [i x]. intros H. apply enumerate_from_lookup in H as [_ H].
  by rewrite Nat.sub_0_r in H.
Qed.

Lemma ids_sorted_cons x l :
  ids_sorted (x :: l) <-> ids_sorted l /\ Forall (fun y => (x.1 < y.1)%nat) l.
Proof.
  unfold ids_sorted. simpl. split.
  - intros H. apply StronglySorted_inv in H as [H1 H2]. split; [done|].
    by rewrite Forall_fmap in H2.
  - intros [H1 H2]. constructor; [done|]. by rewrite Forall_fmap.
Qed.

Lemma ids_sorted_filter (P : obj -> Prop) `{!forall x, Decision (P x)} l :
  ids_sorted l -> ids_sorted (filter P l).
Proof.
  induction l as [|x l IH]; [done|]. rewrite ids_sorted_cons. intros [H1 H2].
  rewrite filter_cons. destruct (decide (P x)); [|by apply IH].
  apply ids_sorted_cons. split; [by apply IH|].
  apply Forall_forall. intros y Hy. apply list_elem_of_filter in Hy as [_ Hy].
  rewrite Forall_forall in H2. by apply H2.
Qed.

Lemma ids_sorted_inj l (a b : obj) :
  ids_sorted l -> a ∈ l -> b ∈ l -> a.1 = b.1 -> a = b.
Proof.
  induction l as [|x l IH]; intros Hs Ha Hb Hab.
  - by apply elem_of_nil in Ha.
  - apply ids_sorted_cons in Hs as [Hs Hx]. rewrite Forall_forall in Hx.
    apply elem_of_cons in Ha as [->|Ha]; apply elem_of_cons in Hb as [->|Hb].
    + done.
    + apply Hx in Hb. lia.
    + apply Hx in Ha. lia.
    + by apply IH.
Qed.

Lemma ids_sorted_NoDup l : ids_sorted l -> NoDup l.
Proof.
  induction l as [|x l IH]; [constructor|]. rewrite ids_sorted_cons. intros [Hs Hx].
  constructor; [|by apply IH].
  intros Hin. rewrite Forall_forall in Hx. apply Hx in Hin. lia.
Qed.

Lemma pairs_from_short l :
  (if (1 <? Z.of_nat (length l))%Z then pairs_from l else []) = pairs_from l.
Proof.
  destruct (1 <? _)%Z eqn:E; [done|]. apply Z.ltb_ge in E.
  destruct l as [|x [|y l]]; simpl in *; [done|done|lia].
Qed.

Lemma elem_of_pairs_from d l :
  d ∈ pairs_from l -> dp_score d = 1%Q /\ d.1.1 ∈ l /\ d.1.2 ∈ l.
Proof.
  induction l as [|x l IH]; simpl; intros H.
  - by apply elem_of_nil in H.
  - apply elem_of_app in H as [H|H].
    + apply list_elem_of_fmap in H as (y & -> & Hy). simpl.
      split; [done|]. split; [left|by right].
    + apply IH in H as (H1 & H2 & H3). split; [done|]. split; by right.
Qed.

Lemma pairs_from_ids_lt d l :
  ids_sorted l -> d ∈ pairs_from l -> (dp_id1 d < dp_id2 d)%nat.
Proof.
  induction l as [|x l IH]; simpl; intros Hs H.
  - by apply elem_of_nil in H.
  - apply ids_sorted_cons in Hs as [Hs Hx]. apply elem_of_app in H as [H|H].
    + apply list_elem_of_fmap in H as (y & -> & Hy).
      rewrite Forall_forall in Hx. by apply Hx.
    + by apply IH.
Qed.

Lemma pairs_from_NoDup l : ids_sorted l -> NoDup (map dp_ids (pairs_from l)).
Proof.
  induction l as [|x l IH]; simpl; intros Hs; [constructor|].
  apply ids_sorted_cons in Hs as [Hs Hx]. rewrite map_app. apply NoDup_app.
  split; [|split; [|by apply IH]].
  - rewrite map_map. unfold dp_ids, dp_id1, dp_id2. simpl.
    apply (NoDup_fmap_2_strong (fun y : obj => (x.1, y.1))); [|by apply ids_sorted_NoDup].
    intros a b Ha Hb [= Hab]. by apply (ids_sorted_inj l).
  - intros ids H1 H2. rewrite map_map in H1.
    apply list_elem_of_fmap in H1 as (y & -> & Hy).
    apply list_elem_of_fmap in H2 as (d & Hd & Hin).
    apply elem_of_pairs_from in Hin as (_ & Hin & _).
    unfold dp_ids, dp_id1 in Hd. simpl in Hd. injection Hd as Hd _.
    rewrite Forall_forall in Hx. apply Hx in Hin. lia.
Qed.

(** *** The hash groups *)

Lemma group_append_new {V} h (b : V) groups :
  h ∉ groups.*1 -> group_append h b groups = groups ++ [(h, [b])].
Proof.
  induction groups as [|[h' bs] gs IH]; simpl; intros Hn; [done|].
  apply not_elem_of_cons in Hn as [Hne Hn].
  destruct (String.eqb h h') eqn:E; [apply String.eqb_eq in E; done|].
  by rewrite IH.
Qed.

Lemma group_append_old {V} h (b : V) groups :
  h ∈ groups.*1 ->
  exists g1 bs g2, groups = g1 ++ (h, bs) :: g2
                   /\ group_append h b groups = g1 ++ (h, bs ++ [b]) :: g2.
Proof.
  induction groups as [|[h' bs] gs IH]; simpl; intros Hin.
  - by apply elem_of_nil in Hin.
  - destruct (String.eqb h h') eqn:E.
    + apply String.eqb_eq in E as <-. by exists [], bs, gs.
    + apply String.eqb_neq in E. apply elem_of_cons in Hin as [?|Hin]; [done|].
      destruct (IH Hin) as (g1 & bs' & g2 & -> & ->).
      by exists ((h', bs) :: g1), bs', g2.
Qed.

Lemma groups_of_step p groups (b : obj) :
  groups_of p groups ->
  (forall o, o ∈ p -> hash o.2 ∈ groups.*1) ->
  groups_of (p ++ [b]) (group_append (hash b.2) b groups)
  /\ (forall o, o ∈ p ++ [b] -> hash o.2 ∈ (group_append (hash b.2) b groups).*1).
Proof.
  intros [Hnd Hall] Hcov.
  assert (forall g : string * list obj, g.1 <> hash b.2 ->
            filter (same_hash g.1) (p ++ [b]) = filter (same_hash g.1) p) as Hother.
  { intros g Hne. rewrite filter_app, filter_cons, filter_nil.
    destruct (decide (same_hash g.1 b)) as [E|E]; [by rewrite E in Hne|].
    by rewrite app_nil_r. }
  destruct (decide (hash b.2 ∈ groups.*1)) as [Hin|Hnin].
  - destruct (group_append_old _ b _ Hin) as (g1 & bs & g2 & Hg & ->).
    subst groups. rewrite fmap_app in Hnd |- *. simpl in *.
    apply NoDup_app in Hnd as (Hn1 & Hn2 & Hn3). apply NoDup_cons in Hn3 as [Hn3 Hn4].
    apply Forall_app in Hall as [Ha1 Ha2]. apply Forall_cons in Ha2 as [Ha2 Ha3].
    simpl in Ha2. split; [split|].
    + rewrite fmap_app. simpl. apply NoDup_app. split; [done|]. split; [done|].
      by apply NoDup_cons.
    + apply Forall_app. split; [|apply Forall_cons; split].
      * apply Forall_forall. intros g Hg. rewrite Forall_forall in Ha1.
        rewrite Hother; [by apply Ha1|].
        intros E. apply (Hn2 g.1); [by apply list_elem_of_fmap_2|]. rewrite E. left.
      * simpl. rewrite filter_app, filter_cons, filter_nil, Ha2.
        destruct (decide (same_hash (hash b.2) b)) as [E|E]; [done|]. by destruct E.
      * apply Forall_forall. intros g Hg. rewrite Forall_forall in Ha3.
        rewrite Hother; [by apply Ha3|].
        intros E. apply Hn3. rewrite <- E. by apply list_elem_of_fmap_2.
    + intros o Ho. rewrite ?fmap_app. simpl.
      apply elem_of_app in Ho as [Ho|Ho].
      * specialize (Hcov o Ho). by rewrite ?fmap_app in Hcov.
      * apply list_elem_of_singleton in Ho as ->. apply elem_of_app. right. left.
  - rewrite group_append_new by done. split; [split|].
    + rewrite fmap_app. simpl. apply NoDup_app. split; [done|]. split.
      * intros h Hh Hh'. apply list_elem_of_singleton in Hh' as ->. done.
      * apply NoDup_singleton.
    + apply Forall_app. split.
      * apply Forall_forall. intros g Hg. rewrite Forall_forall in Hall.
        rewrite Hother; [by apply Hall|].
        intros E. apply Hnin. rewrite <- E. by apply list_elem_of_fmap_2.
      * apply Forall_singleton. simpl. rewrite filter_app, filter_cons, filter_nil.
        destruct (decide (same_hash (hash b.2) b)) as [E|E]; [|by destruct E].
        destruct (filter (same_hash (hash b.2)) p) as [|o l] eqn:Ef; [done|].
        assert (o ∈ filter (same_hash (hash b.2)) p) as Ho by (rewrite Ef; left).
        apply list_elem_of_filter in Ho as [Ho Hin].
        destruct Hnin. rewrite <- Ho. by apply Hcov.
    + intros o Ho. rewrite fmap_app. simpl. apply elem_of_app in Ho as [Ho|Ho].
      * apply elem_of_app. left. by apply Hcov.
      * apply list_elem_of_singleton in Ho as ->. apply elem_of_app. right. left.
Qed.

Lemma hash_groups_fold p groups rest :
  groups_of p groups ->
  (forall o, o ∈ p -> hash o.2 ∈ groups.*1) ->
  groups_of (p ++ rest)
    (fold_left (fun groups block => group_append (hash block.2) block groups)
       rest groups).
Proof.
  revert p groups. induction rest as [|b rest IH]; intros p groups Hg Hcov; simpl.
  - by rewrite app_nil_r.
  - destruct (groups_of_step p groups b Hg Hcov) as [Hg' Hcov'].
    replace (p ++ b :: rest) with ((p ++ [b]) ++ rest) by (by rewrite <- app_assoc).
    by apply IH.
Qed.

Lemma hash_groups_of_spec objs : groups_of objs (hash_groups_of objs).
Proof.
  apply (hash_groups_fold [] [] objs).
  - split; simpl; constructor.
  - intros o Ho. by apply elem_of_nil in Ho.
Qed.

(** *** The pairs of the exact pass *)

Lemma exact_pairs_elem objs d :
  d ∈ exact_pairs objs ->
  dp_score d = 1%Q /\ d.1.1 ∈ objs /\ d.1.2 ∈ objs
  /\ hash (dp_block1 d) = hash (dp_block2 d)
  /\ (ids_sorted objs -> (dp_id1 d < dp_id2 d)%nat).
Proof.
  unfold exact_pairs. intros H. apply list_elem_of_In, in_flat_map in H as (g & Hg & Hd).
  apply list_elem_of_In in Hg, Hd. rewrite pairs_from_short in Hd.
  destruct (hash_groups_of_spec objs) as [_ Hall]. rewrite Forall_forall in Hall.
  specialize (Hall g Hg). rewrite Hall in Hd.
  pose proof (elem_of_pairs_from _ _ Hd) as (H1 & H2 & H3).
  apply list_elem_of_filter in H2 as [H2 H2'], H3 as [H3 H3'].
  split; [done|]. split; [done|]. split; [done|]. split.
  - unfold dp_block1, dp_block2. unfold same_hash in H2, H3. congruence.
  - intros Hs. apply (pairs_from_ids_lt _ (filter (same_hash g.1) objs)); [|done].
    by apply ids_sorted_filter.
Qed.

Lemma exact_pairs_NoDup objs :
  ids_sorted objs -> NoDup (map dp_ids (exact_pairs objs)).
Proof.
  intros Hs. unfold exact_pairs.
  destruct (hash_groups_of_spec objs) as [Hnd Hall].
  induction (hash_groups_of objs) as [|g gs IH]; simpl; [constructor|].
  apply NoDup_cons in Hnd as [Hg Hnd]. apply Forall_cons in Hall as [Hg' Hall].
  rewrite map_app. apply NoDup_app. split; [|split; [|by apply IH]].
  - rewrite pairs_from_short, Hg'. apply pairs_from_NoDup. by apply ids_sorted_filter.
  - intros ids H1 H2. rewrite pairs_from_short, Hg' in H1.
    apply list_elem_of_fmap in H1 as (d1 & -> & Hd1).
    apply list_elem_of_fmap in H2 as (d2 & Heq & Hd2).
    apply elem_of_pairs_from in Hd1 as (_ & Hd1 & _).
    apply list_elem_of_filter in Hd1 as [Hh1 Hd1].
    apply list_elem_of_In, in_flat_map in Hd2 as (g2 & Hg2 & Hd2).
    apply list_elem_of_In in Hg2, Hd2. rewrite pairs_from_short in Hd2.
    rewrite Forall_forall in Hall. rewrite (Hall g2 Hg2) in Hd2.
    apply elem_of_pairs_from in Hd2 as (_ & Hd2 & _).
    apply list_elem_of_filter in Hd2 as [Hh2 Hd2].
    injection Heq as Heq _. unfold dp_id1 in Heq.
    pose proof (ids_sorted_inj objs _ _ Hs Hd1 Hd2 Heq) as E.
    apply Hg. replace g.1 with g2.1; [by apply list_elem_of_fmap_2|].
    unfold same_hash in Hh1, Hh2. rewrite <- Hh1, <- Hh2, E. done.
Qed.

Section Run.
Variable W : World.

Lemma extracted_hash uf min path :
  Forall (hash_of_content W) (extracted W uf min path).
Proof.
  apply Forall_forall. intros b Hb. unfold extracted in Hb.
  destruct (read_text W path) as [text|e]; [|by apply elem_of_nil in Hb].
  destruct uf.
  - destruct (ast_parse W text path) as [tree|e]; [|by apply elem_of_nil in Hb].
    apply list_elem_of_In, in_flat_map in Hb as (node & _ & Hb).
    apply list_elem_of_In in Hb. unfold function_blocks in Hb.
    destruct node as [l e|l e|]; try (by apply elem_of_nil in Hb);
      destruct (_ <=? _)%Z; try (by apply elem_of_nil in Hb);
      apply list_elem_of_singleton in Hb as ->; done.
  - unfold code_blocks in Hb. destruct (_ <? _)%Z; [by apply elem_of_nil in Hb|].
    apply list_elem_of_In, in_flat_map in Hb as (c & _ & Hb).
    apply list_elem_of_In in Hb. unfold window_blocks in Hb.
    destruct (window_kept _); [|by apply elem_of_nil in Hb].
    apply list_elem_of_singleton in Hb as ->. done.
Qed.

Lemma sim_trace_fields fr fr' new cands :
  sim_trace W fr fr' new cands ->
  min_lines (self fr') = min_lines (self fr)
  /\ similarity_threshold (self fr') = similarity_threshold (self fr)
  /\ blocks (self fr') = blocks (self fr)
  /\ duplicates (self fr') = duplicates (self fr) ++ new.
Proof. intros (H1 & _). rewrite H1. done. Qed.

(** What one run on a fresh detector leaves. *)
Lemma run_detector_shape min thr files uf :
  let bs := flat_map (extracted W uf min) files in
  let objs := Py.enumerate bs in
  exists new,
    run_detector W min thr files uf
    = mkDetector min thr bs (exact_pairs objs ++ new)
    /\ sublist (map fst new) (candidates objs objs)
    /\ Forall (sim_recorded W thr) new
    /\ NoDup (map dp_key new).
Proof.
  intros bs objs. unfold run_detector. rewrite find_duplicates_run. simpl.
  unfold found, found_blocks. simpl. fold bs. fold objs.
  destruct (similarity_pass_trace W objs
              (mkFrame (mkDetector min thr bs (exact_pairs objs)) ∅)) as [new Ht].
  exists new. pose proof (sim_trace_fields _ _ _ _ Ht) as (F1 & F2 & F3 & F4).
  destruct Ht as (T1 & T2 & T3 & T4 & T5 & T6). simpl in *.
  split; [|done].
  destruct (self (similarity_pass_frame W objs _)). simpl in *. congruence.
Qed.

Lemma candidates_elem objs todo c :
  c ∈ candidates objs todo -> c.1 ∈ todo /\ c.2 ∈ drop (S c.1.1) objs.
Proof.
  unfold candidates. intros H. apply list_elem_of_In, in_flat_map in H as (b & Hb & H).
  apply list_elem_of_In in Hb, H. apply list_elem_of_fmap in H as (b2 & -> & H).
  done.
Qed.

Lemma candidates_objs objs c :
  c ∈ candidates objs objs -> c.1 ∈ objs /\ c.2 ∈ objs.
Proof.
  intros H. apply candidates_elem in H as [H1 H2]. split; [done|].
  by apply (subseteq_drop (S c.1.1) objs).
Qed.

Lemma candidates_NoDup objs todo :
  NoDup objs -> NoDup todo -> NoDup (candidates objs todo).
Proof.
  intros Ho. unfold candidates. induction todo as [|b todo IH]; intros Hn; simpl.
  - constructor.
  - apply NoDup_cons in Hn as [Hb Hn]. apply NoDup_app. split; [|split; [|by apply IH]].
    + apply NoDup_fmap_2; [by intros ?? [=]|].
      by apply (sublist_NoDup (drop (S b.1) objs) objs), sublist_drop.
    + intros c H1 H2. apply list_elem_of_fmap in H1 as (b2 & -> & _).
      apply candidates_elem in H2 as [H2 _]. done.
Qed.

Lemma enumerate_from_nth {A} k (l : list A) i o :
  Py.enumerate_from k l !! i = Some o -> o.1 = (k + i)%nat.
Proof.
  revert k i. induction l as [|x l IH]; intros k i H; [done|].
  destruct i as [|i]; simpl in H.
  - injection H as <-. simpl. lia.
  - apply IH in H. lia.
Qed.

Lemma candidates_enumerate_lt (bs : list CodeBlock) c :
  c ∈ candidates (Py.enumerate bs) (Py.enumerate bs) -> (c.1.1 < c.2.1)%nat.
Proof.
  intros H. apply candidates_elem in H as [_ H].
  apply list_elem_of_lookup in H as [k Hk]. rewrite lookup_drop in Hk.
  apply enumerate_from_nth in Hk. lia.
Qed.

(** The pairs that the similarity pass records: two objects of
    [self.blocks], the earlier one first, each pair of positions once. *)
Lemma sim_new_ids (bs : list CodeBlock) (new : list DuplicatePair) :
  sublist (map fst new) (candidates (Py.enumerate bs) (Py.enumerate bs)) ->
  Forall (fun d => d.1.1 ∈ Py.enumerate bs /\ d.1.2 ∈ Py.enumerate bs
                   /\ (dp_id1 d < dp_id2 d)%nat) new
  /\ NoDup (map dp_ids new).
Proof.
  intros Hsub. set (objs := Py.enumerate bs) in *.
  assert (forall c, c ∈ map fst new -> c ∈ candidates objs objs) as Hin.
  { intros c Hc. by apply (sublist_subseteq _ _ Hsub). }
  split.
  - apply Forall_forall. intros d Hd.
    assert (d.1 ∈ candidates objs objs) as Hc by (apply Hin; by apply list_elem_of_fmap_2).
    pose proof (candidates_objs _ _ Hc) as [H1 H2].
    pose proof (candidates_enumerate_lt _ _ Hc). done.
  - pose proof (enumerate_sorted bs) as Hs. fold objs in Hs.
    replace (map dp_ids new) with (map (fun c : obj * obj => (c.1.1, c.2.1)) (map fst new))
      by (by rewrite map_map).
    apply NoDup_fmap_2_strong.
    + intros c c' Hc Hc' [= E1 E2].
      apply Hin, candidates_objs in Hc as [? ?]. apply Hin, candidates_objs in Hc' as [? ?].
      destruct c as [a b], c' as [a' b']. simpl in *.
      f_equal; by apply (ids_sorted_inj objs).
    + apply (sublist_NoDup _ (candidates objs objs)); [|done].
      apply candidates_NoDup; by apply ids_sorted_NoDup.
Qed.

Lemma ratio_refl s : matching_reflexive W -> (ratio W s s == 1)%Q.
Proof.
  intros Hm. unfold ratio. rewrite Hm.
  destruct (Py.len s + Py.len s =? 0)%nat eqn:E; [reflexivity|].
  apply Nat.eqb_neq in E. unfold Qeq. simpl Qnum. simpl Qden.
  rewrite Z.mul_1_r, Z.mul_1_l. lia.
Qed.

Lemma blocks_hash min thr files uf :
  Forall (hash_of_content W) (blocks (run_detector W min thr files uf)).
Proof.
  destruct (run_detector_shape min thr files uf) as (new & -> & _). simpl.
  apply Forall_forall. intros b Hb.
  apply list_elem_of_In, in_flat_map in Hb as (path & _ & Hb).
  apply list_elem_of_In in Hb.
  pose proof (extracted_hash uf min path) as H. rewrite Forall_forall in H. by apply H.
Qed.

Lemma same_hash_same_content (b1 b2 : CodeBlock) :
  md5_collision_free W -> hash_of_content W b1 -> hash_of_content W b2 ->
  hash b1 = hash b2 <-> content b1 = content b2.
Proof.
  unfold hash_of_content. intros Hf H1 H2. rewrite H1, H2. split; [apply Hf|by intros ->].
Qed.

(** The content of an extracted block is the text of its line range in
    its file: stripped in window mode, joined in function mode. *)
Lemma extracted_stored_text uf min path b :
  b ∈ extracted W uf min path -> content b = stored_text W uf b.
Proof.
  unfold extracted, stored_text, function_text, raw_content. intros Hb.
  destruct (read_text W path) as [text|e] eqn:Hr; [|by apply elem_of_nil in Hb].
  destruct uf.
  - destruct (ast_parse W text path) as [tree|e]; [|by apply elem_of_nil in Hb].
    apply list_elem_of_In, in_flat_map in Hb as (node & _ & Hb).
    apply list_elem_of_In in Hb. unfold function_blocks in Hb.
    destruct node as [l e|l e|]; try (by apply elem_of_nil in Hb);
      destruct (_ <=? _)%Z; try (by apply elem_of_nil in Hb);
      apply list_elem_of_singleton in Hb as ->; cbn [file_path start_line end_line
        content CodeBlock_init]; by rewrite Hr.
  - unfold code_blocks in Hb. destruct (_ <? _)%Z; [by apply elem_of_nil in Hb|].
    apply list_elem_of_In, in_flat_map in Hb as ([i w] & _ & Hb).
    apply list_elem_of_In in Hb. unfold window_blocks in Hb.
    destruct (window_kept _); [|by apply elem_of_nil in Hb].
    apply list_elem_of_singleton in Hb as ->.
    cbn [file_path start_line end_line content CodeBlock_init window_block fst snd].
    rewrite Hr. by replace (i + 1 - 1)%Z with i by lia;
      replace (i + w - (i + 1) + 1)%Z with w by lia.
Qed.

Lemma blocks_stored_text min thr files uf b :
  b ∈ blocks (run_detector W min thr files uf) -> content b = stored_text W uf b.
Proof.
  destruct (run_detector_shape min thr files uf) as (new & -> & _). simpl.
  intros Hb. apply list_elem_of_In, in_flat_map in Hb as (path & _ & Hb).
  apply list_elem_of_In in Hb. by apply (extracted_stored_text uf min path).
Qed.

(** A pair the similarity pass records has two different fingerprints. *)
Lemma sim_recorded_hash thr d :
  md5_collision_free W -> matching_reflexive W ->
  hash_of_content W (dp_block1 d) -> hash_of_content W (dp_block2 d) ->
  sim_recorded W thr d -> hash (dp_block1 d) <> hash (dp_block2 d).
Proof.
  intros Hf Hm H1 H2 (_ & Hs & _ & Hlt) Heq.
  apply (same_hash_same_content _ _ Hf H1 H2) in Heq.
  unfold calculate_similarity in Hs. rewrite Heq in Hs.
  pose proof (ratio_refl (Py.join " " (Py.split (content (dp_block2 d)))) Hm) as Hr.
  rewrite <- Hs in Hr. rewrite Hr in Hlt. by apply Qlt_irrefl in Hlt.
Qed.

Lemma enumerate_block (bs : list CodeBlock) (o : obj) :
  o ∈ Py.enumerate bs -> o.2 ∈ bs.
Proof. intros H. apply enumerate_elem_of in H. by apply list_elem_of_lookup_2 in H. Qed.

End Run.

(** ** Windows *)

Lemma candidate_windows_elem min n i w :
  (i, w) ∈ candidate_windows min n
  <-> (0 <= i < n - min + 1)%Z /\ (min <= w < Z.min 50 (n - i + 1))%Z.
Proof.
  unfold candidate_windows. rewrite list_elem_of_In, in_flat_map. split.
  - intros (i' & Hi & Hw). apply in_map_iff in Hw as (w' & [= -> ->] & Hw).
    apply list_elem_of_In, elem_of_range in Hi, Hw. done.
  - intros [Hi Hw]. exists i. split; [by apply list_elem_of_In, elem_of_range|].
    apply in_map_iff. exists w. split; [done|]. by apply list_elem_of_In, elem_of_range.
Qed.

Section Windows.
Variable W : World.

Lemma code_blocks_elem min path lines b :
  b ∈ code_blocks W min path lines
  <-> exists i w,
        (i, w) ∈ candidate_windows min (Z.of_nat (length lines))
        /\ window_kept (Py.strip (window_content lines i w)) = true
        /\ b = window_block W path lines i w.
Proof.
  unfold code_blocks. destruct (_ <? _)%Z eqn:E.
  - split; [intros H; by apply elem_of_nil in H|].
    intros (i & w & H & _). apply candidate_windows_elem in H. apply Z.ltb_lt in E. lia.
  - rewrite list_elem_of_In, in_flat_map. split.
    + intros ([i w] & Hc & Hb). exists i, w. apply list_elem_of_In in Hc, Hb.
      unfold window_blocks in Hb. simpl in Hb.
      destruct (window_kept _) eqn:Hk; [|by apply elem_of_nil in Hb].
      apply list_elem_of_singleton in Hb. done.
    + intros (i & w & Hc & Hk & ->). exists (i, w). split; [by apply list_elem_of_In|].
      unfold window_blocks. simpl. rewrite Hk. by left.
Qed.

(** Every block of window mode spans at least [min_lines] and at most 49
    lines. *)
Lemma code_blocks_size min path lines :
  Forall (fun b => (min <= end_line b - start_line b + 1 <= 49)%Z)
    (code_blocks W min path lines).
Proof.
  apply Forall_forall. intros b Hb.
  apply code_blocks_elem in Hb as (i & w & Hc & _ & ->).
  apply candidate_windows_elem in Hc. simpl. lia.
Qed.

Lemma window_block_inj path lines i w i' w' :
  window_block W path lines i w = window_block W path lines i' w' ->
  i = i' /\ w = w'.
Proof. unfold window_block, CodeBlock_init. intros [= H1 H2 _]. lia. Qed.

Lemma window_block_kept min path lines i w :
  (i, w) ∈ candidate_windows min (Z.of_nat (length lines)) ->
  window_block W path lines i w ∈ code_blocks W min path lines
  <-> window_kept (Py.strip (window_content lines i w)) = true.
Proof.
  intros Hc. rewrite code_blocks_elem. split.
  - intros (i' & w' & _ & Hk & Heq). apply window_block_inj in Heq as [-> ->]. done.
  - intros Hk. by exists i, w.
Qed.

End Windows.

Lemma window_kept_spec stripped :
  window_kept stripped = true
  <-> ~ (Py.len stripped < 20)%nat
      /\ ~ (1 # 2 < Z.of_nat (Py.count "#" stripped)
                    # Pos.of_nat (length (Py.splitlines stripped)))%Q.
Proof.
  unfold window_kept, Qgtb. rewrite andb_true_iff, !negb_true_iff, negb_false_iff.
  rewrite Nat.ltb_ge, Qle_bool_iff. split; intros [H1 H2]; split; try lia.
  - by apply Qle_not_lt.
  - by apply Qnot_lt_le.
Qed.

(** ** Sorting *)

Lemma insert_desc_perm d l : Permutation (insert_desc d l) (d :: l).
Proof.
  induction l as [|e l IH]; simpl; [done|].
  destruct (Qle_bool _ _); [done|]. rewrite IH. apply perm_swap.
Qed.

Lemma sorted_desc_perm l : Permutation (sorted_desc l) l.
Proof.
  induction l as [|d l IH]; simpl; [done|].
  unfold sorted_desc in *. simpl. rewrite insert_desc_perm. by constructor.
Qed.

Lemma insert_desc_sorted d l :
  StronglySorted score_ge l -> StronglySorted score_ge (insert_desc d l).
Proof.
  induction l as [|e l IH]; simpl; intros Hs.
  - repeat constructor.
  - apply StronglySorted_inv in Hs as [Hs He].
    destruct (Qle_bool (dp_score e) (dp_score d)) eqn:E.
    + apply Qle_bool_iff in E. constructor; [by constructor|].
      constructor; [done|]. apply Forall_forall. intros x Hx.
      rewrite Forall_forall in He. specialize (He x Hx). unfold score_ge in *.
      by apply Qle_trans with (dp_score e).
    + constructor; [by apply IH|].
      assert (dp_score d < dp_score e)%Q as Hlt.
      { apply Qnot_le_lt. intros H. apply Qle_bool_iff in H. congruence. }
      apply Forall_forall. intros x Hx.
      rewrite (insert_desc_perm d l) in Hx.
      apply elem_of_cons in Hx as [->|Hx].
      * by apply Qlt_le_weak.
      * rewrite Forall_forall in He. by apply He.
Qed.

Lemma sorted_desc_sorted l : StronglySorted score_ge (sorted_desc l).
Proof.
  induction l as [|d l IH]; simpl; [constructor|]. by apply insert_desc_sorted.
Qed.

Lemma insert_desc_stable q d l :
  filter (fun e => dp_score e == q)%Q (insert_desc d l)
  = filter (fun e => dp_score e == q)%Q (d :: l).
Proof.
  induction l as [|e l IH]; simpl; [done|].
  destruct (Qle_bool (dp_score e) (dp_score d)) eqn:E; [done|].
  rewrite filter_cons, IH, !filter_cons.
  destruct (decide (dp_score e == q)%Q) as [He|He]; [|done].
  destruct (decide (dp_score d == q)%Q) as [Hd|Hd]; [|done].
  exfalso. assert (Qle_bool (dp_score e) (dp_score d) = true); [|congruence].
  apply Qle_bool_iff. rewrite He, Hd. apply Qle_refl.
Qed.

Lemma sorted_desc_stable q l :
  filter (fun e => dp_score e == q)%Q (sorted_desc l)
  = filter (fun e => dp_score e == q)%Q l.
Proof.
  induction l as [|d l IH]; simpl; [done|].
  unfold sorted_desc in *. simpl. rewrite insert_desc_stable, !filter_cons, IH. done.
Qed.

Lemma print_runs {L} (t : text) : runs_as (L := L) (print t) (fun l => l) (fun _ => [t]).
Proof. by intros l out. Qed.

Lemma fold_left_id {L A} (xs : list A) (l : L) : fold_left (fun l _ => l) xs l = l.
Proof. induction xs; simpl; auto. Qed.

Lemma report_entry_step_runs entry :
  runs_as (report_entry_step entry) (fun l => l) (fun _ => entry_lines entry).
Proof.
  intros l out. unfold report_entry_step, entry_lines.
  rewrite !(seq_runs _ _ _ _ _ _ (print_runs _)).
  destruct (Qeq_bool _ _); rewrite print_runs, <- !app_assoc; done.
Qed.

Lemma task_step_runs d :
  runs_as (task_step d) (fun l => l) (fun _ => task_lines d).
Proof.
  intros l out. unfold task_step, task_lines.
  destruct (Qeq_bool _ _); rewrite !(seq_runs _ _ _ _ _ _ (print_runs _)), print_runs,
    <- !app_assoc; done.
Qed.

Lemma task_group_runs (group : string * list DuplicatePair) :
  runs_as
    (print [Str (NL +:+ Colors.CYAN +:+ group.1 +:+ Colors.NC)];;
     for_each group.2 task_step)
    (fun l => l)
    (fun _ => [Str (NL +:+ Colors.CYAN +:+ group.1 +:+ Colors.NC)]
              :: flat_map task_lines group.2).
Proof.
  intros l out. rewrite (seq_runs _ _ _ _ _ _ (print_runs _)).
  rewrite (for_each_runs _ _ _ _ (fun d _ => task_step_runs d)).
  rewrite fold_left_id, loop_output_const, <- app_assoc. done.
Qed.

(** [print_report] returns and prints [report_output]. *)
Lemma print_report_run self out :
  print_report (self, out) = (Returned tt, (self, out ++ report_output self)).
Proof.
  unfold print_report, report_output.
  erewrite bind_returned by reflexivity. simpl.
  destruct (duplicates self) as [|d ds] eqn:E; [done|].
  unfold print_colored.
  rewrite !(seq_runs _ _ _ _ _ _ (print_runs _)).
  rewrite (seq_runs _ _ _ _ _ _
             (for_each_runs _ _ _ _ (fun e _ => report_entry_step_runs e))).
  rewrite !(seq_runs _ _ _ _ _ _ (print_runs _)).
  assert (Hg := for_each_runs (file_groups_of (sorted_desc (d :: ds))) _ _ _
                  (fun g _ => task_group_runs g)).
  unfold file_groups_of in Hg. rewrite Hg. clear Hg.
  rewrite !fold_left_id, !loop_output_const. unfold report_head, tasks_head, file_groups_of.
  simpl. rewrite <- !app_assoc. done.
Qed.

Section Main.
Variable W : World.

Lemma main_no_files args st out :
  find_python_files W (root_of W args) = [] ->
  main W args (st, out)
  = (Exited 1, (st, out ++ banner W args ++ [error_line "No Python files found!"])).
Proof.
  intros Hf. unfold main. fold (root_of W args). unfold print_colored.
  rewrite !(seq_runs _ _ _ _ _ _ (print_runs _)). rewrite Hf.
  unfold mbind, M_bind, bind, print_error, print_colored, print, sys_exit. simpl.
  rewrite <- !app_assoc. done.
Qed.

Lemma main_files args st out :
  find_python_files W (root_of W args) <> [] ->
  let files := find_python_files W (root_of W args) in
  let fr := fresh_frame (arg_min_lines args) (arg_similarity args) in
  let det := self (found W files (arg_functions_only args) fr) in
  main W args (st, out)
  = (Exited (match duplicates det with [] => 0 | _ :: _ => 1 end)%Z,
     (Some det,
      out ++ banner W args ++ found_output W files (arg_functions_only args) fr
      ++ report_output det)).
Proof.
  intros Hf files fr det. unfold main. fold (root_of W args). fold files.
  unfold print_colored.
  rewrite !(seq_runs _ _ _ _ _ _ (print_runs _)).
  destruct files as [|f fs] eqn:E; [done|]. rewrite <- E. 
  unfold mbind at 1, M_bind at 1, bind at 1. unfold mret, M_ret, ret.
  unfold mbind at 1, M_bind at 1, bind at 1. unfold modify at 1.
  cbn [fst snd].
  unfold mbind at 1, M_bind at 1, bind at 1. unfold call at 1. cbn [fst snd].
  fold fr. rewrite find_duplicates_run. cbn [fst snd].
  unfold mbind at 1, M_bind at 1, bind at 1. unfold modify at 1. cbn [fst snd].
  unfold mbind at 1, M_bind at 1, bind at 1. unfold call at 1. cbn [fst snd].
  rewrite E. fold det. rewrite print_report_run.
  unfold sys_exit. subst det fr. unfold fresh_frame.
  destruct (duplicates _); rewrite <- ?app_assoc; done.
Qed.

End Main.

(** * The properties of the detector *)

Module SampleFacts.

Lemma digest_collision_free : md5_collision_free Sample.world.
Proof. intros a b H. exact H. Qed.

Lemma common_prefix_refl s : Sample.common_prefix s s = Py.len s.
Proof.
  induction s as [|c s IH]; simpl; [done|]. by rewrite Ascii.eqb_refl, IH.
Qed.

Lemma matching_reflexive : matching_reflexive Sample.world.
Proof. intros s. apply common_prefix_refl. Qed.

End SampleFacts.

(** The similarity pass never records two blocks of one file whose line
    ranges overlap. *)
Lemma similarity_pass_skips_overlapping W min thr files uf :
  exists new,
    duplicates (run_detector W min thr files uf)
    = exact_pairs (Py.enumerate (blocks (run_detector W min thr files uf))) ++ new
    /\ Forall (fun d => same_file_overlap (dp_block1 d) (dp_block2 d) = false) new.
Proof.
  destruct (run_detector_shape W min thr files uf) as (new & Hrun & _ & Hrec & _).
  exists new. rewrite Hrun. split; [done|].
  eapply Forall_impl; [exact Hrec|]. by intros d (H & _).
Qed.

(** ** Block construction *)

(** C1, as the claim words it, fails: in the file of a blank line and
    five statements the windows of lines 1 to 6 and of lines 2 to 6 are
    both blocks of the run and have the same fingerprint, the digest
    being free of collisions, yet their raw texts differ by the leading
    line end. *)
Lemma equal_fingerprints_of_different_raw_text :
  let lines := Py.readlines Sample.blank_py in
  let A := window_block Sample.world "blank.py" lines 0 6 in
  let B := window_block Sample.world "blank.py" lines 1 5 in
  md5_collision_free Sample.world
  /\ A ∈ blocks (run_detector Sample.world 5 (8 # 10) ["blank.py"] false)
  /\ B ∈ blocks (run_detector Sample.world 5 (8 # 10) ["blank.py"] false)
  /\ hash A = hash B
  /\ raw_content Sample.world A = NL +:+ raw_content Sample.world B
  /\ raw_content Sample.world A <> raw_content Sample.world B.
Proof.
  split; [exact SampleFacts.digest_collision_free|].
  split; [vm_compute; apply list_elem_of_further, list_elem_of_here|].
  split; [vm_compute; apply list_elem_of_further, list_elem_of_further,
          list_elem_of_here|].
  split; [by vm_compute|]. split; [by vm_compute|]. by vm_compute.
Qed.

(** C1, amended: two blocks constructed during one run, in either
    extraction mode, have equal fingerprints if and only if the texts
    they store are identical, the digest being taken as free of
    collisions; the text a block stores is, in window mode, the raw text
    of its lines with the leading and trailing whitespace stripped, and,
    in function mode, its lines joined by newlines. *)
Theorem fingerprints_equal_iff_stored_text_equal W min thr files uf
    (A B : CodeBlock) :
  md5_collision_free W ->
  A ∈ blocks (run_detector W min thr files uf) ->
  B ∈ blocks (run_detector W min thr files uf) ->
  content A = stored_text W uf A
  /\ content B = stored_text W uf B
  /\ (hash A = hash B <-> stored_text W uf A = stored_text W uf B).
Proof.
  intros Hf HA HB. pose proof (blocks_hash W min thr files uf) as H.
  rewrite Forall_forall in H.
  pose proof (blocks_stored_text W min thr files uf A HA) as EA.
  pose proof (blocks_stored_text W min thr files uf B HB) as EB.
  split; [exact EA|]. split; [exact EB|].
  rewrite <- EA, <- EB. apply (same_hash_same_content W); auto.
Qed.

Lemma fingerprints_equal_iff_stored_text_equal_witness :
  let run := run_detector Sample.world 5 (8 # 10) ["blank.py"] false in
  let lines := Py.readlines Sample.blank_py in
  let A := window_block Sample.world "blank.py" lines 0 6 in
  let B := window_block Sample.world "blank.py" lines 1 5 in
  md5_collision_free Sample.world
  /\ A ∈ blocks run
  /\ B ∈ blocks run
  /\ content A = stored_text Sample.world false A
  /\ content B = stored_text Sample.world false B
  /\ (hash A = hash B
      <-> stored_text Sample.world false A = stored_text Sample.world false B).
Proof.
  intros run lines A B.
  assert (A ∈ blocks run) as HA.
  { vm_compute. apply list_elem_of_further, list_elem_of_here. }
  assert (B ∈ blocks run) as HB.
  { vm_compute. apply list_elem_of_further, list_elem_of_further,
      list_elem_of_here. }
  split; [exact SampleFacts.digest_collision_free|].
  split; [exact HA|]. split; [exact HB|].
  exact (fingerprints_equal_iff_stored_text_equal Sample.world 5 (8 # 10)
           ["blank.py"] false A B SampleFacts.digest_collision_free HA HB).
Defined.

(** ** Window mode *)

(** C4, at a file of fifty-one lines with [min_lines] 5: the window of
    fifty lines from the first line meets the bounds of the claim and
    passes the content filters, yet no block spans it; window mode makes
    no block of more than 49 lines. *)
Theorem window_of_fifty_lines_is_never_extracted :
  length Sample.long_lines = 51%nat
  /\ window_kept (Py.strip (window_content Sample.long_lines 0 50)) = true
  /\ Forall (fun b => (end_line b - start_line b + 1 <= 49)%Z)
       (blocks (run_detector Sample.world 5 (8 # 10) ["long.py"] false))
  /\ window_block Sample.world "long.py" Sample.long_lines 0 50
     ∉ blocks (run_detector Sample.world 5 (8 # 10) ["long.py"] false).
Proof.
  assert (Forall (fun b => (end_line b - start_line b + 1 <= 49)%Z)
            (blocks (run_detector Sample.world 5 (8 # 10) ["long.py"] false))) as H.
  { destruct (run_detector_shape Sample.world 5 (8 # 10) ["long.py"] false)
      as (new & -> & _).
    cbn [blocks flat_map]. rewrite app_nil_r. unfold extracted.
    change (read_text Sample.world "long.py") with (Ok Sample.long_py).
    eapply Forall_impl; [apply code_blocks_size|]. simpl. intros b Hb. lia. }
  split; [by vm_compute|]. split; [by vm_compute|]. split; [exact H|].
  intros Hin. rewrite Forall_forall in H. apply H in Hin. simpl in Hin. lia.
Qed.

(** C5, as the claim words it, fails: the five statements of [c_py], three
    of them with a trailing comment, form one candidate window; it has 20
    characters or more and none of its lines is comment-only, yet the
    code rejects it. *)
Lemma comment_filter_counts_hash_signs :
  let stripped := Py.strip (window_content Sample.c_lines 0 5) in
  (0, 5)%Z ∈ candidate_windows 5 (Z.of_nat (length Sample.c_lines))
  /\ (extract_code_blocks Sample.world Sample.detector "c.py" ([], [])).1
     = Returned []
  /\ (Py.len stripped <? 20)%nat = false
  /\ spec_comment_heavy stripped = false.
Proof. vm_compute. repeat split. apply list_elem_of_here. Qed.

(** C5, amended: window mode rejects a candidate window exactly when its
    stripped content has fewer than 20 characters or the number of hash
    signs in it, divided by the number of its lines, exceeds 0.5; every
    other candidate is kept. *)
Theorem window_rejected_iff_short_or_hash_ratio W self path text i w l out :
  read_text W path = Ok text ->
  (i, w) ∈ candidate_windows (min_lines self)
             (Z.of_nat (length (Py.readlines text))) ->
  let lines := Py.readlines text in
  let stripped := Py.strip (window_content lines i w) in
  let short := (Py.len stripped < 20)%nat in
  let hash_heavy :=
    (1 # 2 < Z.of_nat (Py.count "#" stripped)
             # Pos.of_nat (length (Py.splitlines stripped)))%Q in
  exists bs st,
    extract_code_blocks W self path (l, out) = (Returned bs, st)
    /\ (window_block W path lines i w ∉ bs <-> short \/ hash_heavy)
    /\ (window_block W path lines i w ∈ bs <-> ~ short /\ ~ hash_heavy).
Proof.
  intros Hr Hc lines stripped short hash_heavy.
  pose proof (extract_run W false self path l out) as Hrun.
  unfold extract in Hrun. rewrite Hrun. unfold extracted. rewrite Hr.
  eexists _, _. split; [reflexivity|].
  pose proof (window_block_kept W (min_lines self) path lines i w Hc) as Hk.
  fold lines. rewrite Hk, window_kept_spec. fold stripped short hash_heavy.
  split; [|done]. split.
  - intros Hn. destruct (decide (Py.len stripped < 20)%nat) as [|Hs]; [by left|].
    right. apply Qnot_le_lt. intros Hle. apply Hn. split; [done|].
    by apply Qle_not_lt.
  - intros [Hs|Hh] [H1 H2]; auto.
Qed.

Lemma window_rejected_iff_short_or_hash_ratio_witness :
  let stripped := Py.strip (window_content Sample.c_lines 0 5) in
  read_text Sample.world "c.py" = Ok Sample.c_py
  /\ (0, 5)%Z ∈ candidate_windows 5 (Z.of_nat (length Sample.c_lines))
  /\ exists bs st,
       extract_code_blocks Sample.world Sample.detector "c.py" ([], [])
       = (Returned bs, st)
       /\ (window_block Sample.world "c.py" Sample.c_lines 0 5 ∉ bs
           <-> (Py.len stripped < 20)%nat
               \/ (1 # 2 < Z.of_nat (Py.count "#" stripped)
                           # Pos.of_nat (length (Py.splitlines stripped)))%Q)
       /\ (window_block Sample.world "c.py" Sample.c_lines 0 5 ∈ bs
           <-> ~ (Py.len stripped < 20)%nat
               /\ ~ (1 # 2 < Z.of_nat (Py.count "#" stripped)
                             # Pos.of_nat (length (Py.splitlines stripped)))%Q).
Proof.
  assert ((0, 5)%Z ∈ candidate_windows 5 (Z.of_nat (length Sample.c_lines))) as Hc.
  { vm_compute. apply list_elem_of_here. }
  split; [reflexivity|]. split; [exact Hc|].
  exact (window_rejected_iff_short_or_hash_ratio Sample.world Sample.detector
           "c.py" Sample.c_py 0 5 [] [] eq_refl Hc).
Defined.

(** ** The two passes *)

(** C2, at a file of a blank line and five statements: the windows of
    lines 1 to 6 and of lines 2 to 6 have the same stripped content, and
    the exact pass records them as a pair, although both are in one file
    and their line ranges overlap. *)
Theorem exact_pass_pairs_overlapping_windows :
  map (fun d => (file_path (dp_block1 d), start_line (dp_block1 d),
                 end_line (dp_block1 d), file_path (dp_block2 d),
                 start_line (dp_block2 d), end_line (dp_block2 d), dp_score d))
    (duplicates (run_detector Sample.world 5 (8 # 10) ["blank.py"] false))
  = [("blank.py", 1, 6, "blank.py", 2, 6, 1%Q)]%Z
  /\ Exists (fun d => same_file_overlap (dp_block1 d) (dp_block2 d) = true)
       (duplicates (run_detector Sample.world 5 (8 # 10) ["blank.py"] false)).
Proof. split; [by vm_compute|]. vm_compute. by left. Qed.

(** C3: a recorded pair has score 1.0 if and only if the fingerprints of
    its blocks are equal, and a pair with a score below 1.0 has a score
    that reaches the threshold and is the similarity ratio of the
    whitespace-normalized contents; the digest is taken as free of
    collisions and the matcher as matching a text with itself in full. *)
Theorem score_one_iff_fingerprints_equal W min thr files uf :
  md5_collision_free W -> matching_reflexive W ->
  Forall (score_invariant W thr) (duplicates (run_detector W min thr files uf)).
Proof.
  intros Hf Hm. pose proof (blocks_hash W min thr files uf) as Hh.
  destruct (run_detector_shape W min thr files uf) as (new & Hrun & Hsub & Hrec & _).
  rewrite Hrun in Hh |- *. simpl in *. rewrite Forall_forall in Hh.
  apply Forall_app. split.
  - apply Forall_forall. intros d Hd.
    apply exact_pairs_elem in Hd as (Hs & _ & _ & Hhash & _).
    split; [by rewrite Hs|]. rewrite Hs. intros H. by apply Qlt_irrefl in H.
  - apply sim_new_ids in Hsub as [Hobjs _].
    rewrite Forall_forall in Hobjs, Hrec |- *. intros d Hd.
    destruct (Hobjs d Hd) as (H1 & H2 & _). apply enumerate_block in H1, H2.
    pose proof (sim_recorded_hash W thr d Hf Hm (Hh _ H1) (Hh _ H2) (Hrec d Hd)) as Hne.
    destruct (Hrec d Hd) as (_ & Hs & Hle & Hlt). split.
    + split; [|done]. intros E. rewrite E in Hlt. by apply Qlt_irrefl in Hlt.
    + intros _. split; [done|]. by rewrite Hs.
Qed.

Lemma score_one_iff_fingerprints_equal_witness :
  md5_collision_free Sample.world /\ matching_reflexive Sample.world
  /\ Forall (score_invariant Sample.world (8 # 10))
       (duplicates (run_detector Sample.world 5 (8 # 10) ["a.py"; "b.py"] false)).
Proof.
  split; [exact SampleFacts.digest_collision_free|].
  split; [exact SampleFacts.matching_reflexive|].
  exact (score_one_iff_fingerprints_equal Sample.world 5 (8 # 10) ["a.py"; "b.py"]
           false SampleFacts.digest_collision_free SampleFacts.matching_reflexive).
Defined.

(** C6: no unordered pair of block objects is recorded twice during one
    run, neither in both orientations nor by both passes; the digest is
    taken as free of collisions and the matcher as matching a text with
    itself in full. *)
Theorem no_pair_recorded_twice W min thr files uf :
  md5_collision_free W -> matching_reflexive W ->
  NoDup (map dp_unordered (duplicates (run_detector W min thr files uf))).
Proof.
  intros Hf Hm. pose proof (blocks_hash W min thr files uf) as Hh.
  destruct (run_detector_shape W min thr files uf) as (new & Hrun & Hsub & Hrec & _).
  rewrite Hrun in Hh |- *. simpl in *. rewrite Forall_forall in Hh.
  set (bs := flat_map (extracted W uf min) files) in *.
  pose proof (enumerate_sorted bs) as Hs.
  apply sim_new_ids in Hsub as [Hobjs Hnd].
  rewrite Forall_forall in Hobjs, Hrec.
  assert (forall d, d ∈ exact_pairs (Py.enumerate bs) ++ new ->
                    dp_unordered d = dp_ids d) as Hord.
  { intros d Hd. unfold dp_unordered, dp_ids.
    assert (dp_id1 d < dp_id2 d)%nat as Hlt.
    { apply elem_of_app in Hd as [Hd|Hd].
      - apply exact_pairs_elem in Hd as (_ & _ & _ & _ & Hd). by apply Hd.
      - by apply Hobjs. }
    f_equal; lia. }
  rewrite (map_ext_in _ _ _ (fun d Hd => Hord d (proj2 (list_elem_of_In _ _) Hd))).
  rewrite map_app. apply NoDup_app. split; [by apply exact_pairs_NoDup|]. split; [|done].
  intros ids H1 H2.
  apply list_elem_of_fmap in H1 as (d1 & -> & Hd1).
  apply list_elem_of_fmap in H2 as (d2 & Heq & Hd2).
  apply exact_pairs_elem in Hd1 as (_ & Ha1 & Ha2 & Hhash & _).
  destruct (Hobjs d2 Hd2) as (Hb1 & Hb2 & _).
  injection Heq as E1 E2. unfold dp_id1, dp_id2 in E1, E2.
  pose proof (ids_sorted_inj _ _ _ Hs Ha1 Hb1 E1) as F1.
  pose proof (ids_sorted_inj _ _ _ Hs Ha2 Hb2 E2) as F2.
  apply enumerate_block in Hb1, Hb2.
  apply (sim_recorded_hash W thr d2 Hf Hm (Hh _ Hb1) (Hh _ Hb2) (Hrec d2 Hd2)).
  unfold dp_block1, dp_block2 in *. by rewrite <- F1, <- F2.
Qed.

Lemma no_pair_recorded_twice_witness :
  md5_collision_free Sample.world /\ matching_reflexive Sample.world
  /\ NoDup (map dp_unordered
              (duplicates (run_detector Sample.world 5 (8 # 10) ["a.py"; "b.py"]
                             false))).
Proof.
  split; [exact SampleFacts.digest_collision_free|].
  split; [exact SampleFacts.matching_reflexive|].
  exact (no_pair_recorded_twice Sample.world 5 (8 # 10) ["a.py"; "b.py"] false
           SampleFacts.digest_collision_free SampleFacts.matching_reflexive).
Defined.

(** C10: the similarity pass skips a candidate pair whose key, the ordered
    pair of (file path, start line) strings, is among the keys seen, and
    leaves the store as it is, whatever the similarity of the pair; so the
    pairs it records during a run have distinct keys, each the first
    candidate of its key that passed the guards. *)
Theorem similarity_pass_records_one_pair_per_key W min thr files uf :
  (forall block1 block2 fr out,
     similarity_step W block1 block2 (fr, out)
     = (Returned tt,
        (if bool_decide (pair_key block1.2 block2.2 ∈ seen_pairs fr) then fr
         else similarity_step_frame W block1 block2 fr, out)))
  /\ exists new,
       duplicates (run_detector W min thr files uf)
       = exact_pairs (Py.enumerate (blocks (run_detector W min thr files uf)))
         ++ new
       /\ Forall (sim_recorded W thr) new
       /\ NoDup (map dp_key new).
Proof.
  split.
  - intros block1 block2 fr out. rewrite similarity_step_runs, app_nil_r.
    destruct (bool_decide _) eqn:E; [|done].
    unfold similarity_step_frame. rewrite E. by destruct (same_file_overlap _ _).
  - destruct (run_detector_shape W min thr files uf) as (new & Hrun & Hsub & Hrec & Hnd).
    exists new. rewrite Hrun. done.
Qed.

(** In the sample run over [a.py] and [b.py], the windows of lines 1 to 5
    and of lines 1 to 6 of [a.py] both resemble the block of [b.py]; the
    first pair is recorded, the second has the same key and is not. *)
Example later_pair_of_a_seen_key_is_skipped :
  map (fun d => (dp_ids d, dp_key d))
    (duplicates (run_detector Sample.world 5 (8 # 10) ["a.py"; "b.py"] false))
  = [((0, 2), ("a.py:1", "a.py:2")); ((0, 3), ("a.py:1", "b.py:1"));
     ((2, 3), ("a.py:2", "b.py:1"))]%nat
  /\ same_file_overlap (window_block Sample.world "a.py" Sample.a_lines 0 6)
       (window_block Sample.world "b.py" (Py.readlines Sample.b_py) 0 5) = false
  /\ Qle_bool (8 # 10)
       (calculate_similarity Sample.world
          (window_block Sample.world "a.py" Sample.a_lines 0 6)
          (window_block Sample.world "b.py" (Py.readlines Sample.b_py) 0 5)) = true.
Proof. by vm_compute. Qed.

(** ** Failures and the exit status *)

(** C8: no exception leaves [find_duplicates], whatever the files are; it
    goes through all of them, and a file whose read or parse fails gives
    no block and one warning, in either mode. *)
Theorem extraction_failures_are_skipped W files uf fr out :
  let r := find_duplicates W files uf (fr, out) in
  r.1 = Returned tt
  /\ blocks (self r.2.1)
     = blocks (self fr) ++ flat_map (extracted W uf (min_lines (self fr))) files
  /\ (forall path self l out',
        match extraction_failure W uf path with
        | Some e =>
            extract W uf self path (l, out')
            = (Returned [], ([], out' ++ [failure_warning uf path e]))
        | None => True
        end)
  /\ Forall (fun path =>
               match extraction_failure W uf path with
               | Some e => failure_warning uf path e ∈ r.2.2
               | None => True
               end) files.
Proof.
  intros r. subst r. rewrite find_duplicates_run. cbn [fst snd].
  assert (forall path e, extraction_failure W uf path = Some e ->
            forall min, extracted W uf min path = []
            /\ extract_output W uf path = [failure_warning uf path e]) as Hfail.
  { intros path e He min'. unfold extraction_failure in He.
    unfold extracted, extract_output, failure_warning.
    destruct (read_text W path) as [text|e'].
    - destruct uf; [|done]. destruct (ast_parse W text path); [done|].
      by injection He as ->.
    - injection He as ->. by destruct uf. }
  split; [done|]. split; [|split].
  - destruct (similarity_pass_trace W
                (Py.enumerate (found_blocks W files uf fr))
                (mkFrame
                   (mkDetector (min_lines (self fr)) (similarity_threshold (self fr))
                      (found_blocks W files uf fr)
                      (duplicates (self fr)
                       ++ exact_pairs (Py.enumerate (found_blocks W files uf fr))))
                   ∅)) as [new Ht].
    apply sim_trace_fields in Ht as (_ & _ & Hb & _). unfold found. by rewrite Hb.
  - intros path self0 l out'. destruct (extraction_failure W uf path) as [e|] eqn:He; [|done].
    rewrite extract_run.
    destruct (Hfail path e He (min_lines self0)) as [-> ->]. done.
  - apply Forall_forall. intros path Hp.
    destruct (extraction_failure W uf path) as [e|] eqn:He; [|done].
    unfold found_output. apply elem_of_app. right. apply elem_of_cons. right.
    apply elem_of_app. left. apply list_elem_of_In, in_flat_map. exists path.
    split; [by apply list_elem_of_In|].
    destruct (Hfail path e He 0%Z) as [_ ->]. by left.
Qed.

(** In the sample run, [missing.py] cannot be read: the warning is
    printed and the blocks of the other two files are all there. *)
Example missing_file_is_skipped :
  extraction_failure Sample.world false "missing.py"
  = Some (OSError "[Errno 2] No such file or directory")
  /\ blocks (run_detector Sample.world 5 (8 # 10) ["a.py"; "missing.py"; "b.py"]
               false)
     = blocks (run_detector Sample.world 5 (8 # 10) ["a.py"; "b.py"] false).
Proof. by vm_compute. Qed.

(** C7: [main] exits with status 1 when no file is found, before it makes
    a detector or prints anything but the banner and the error; else it
    exits with status 0 when the detector recorded no pair and with status
    1 when it recorded one. *)
Theorem main_exit_status W args :
  let files := find_python_files W (root_of W args) in
  let det :=
    run_detector W (arg_min_lines args) (arg_similarity args) files
      (arg_functions_only args) in
  let r := main W args (None, []) in
  exit_status r.1
  = match files with
    | [] => 1%Z
    | _ :: _ => match duplicates det with [] => 0%Z | _ :: _ => 1%Z end
    end
  /\ r.2.1 = match files with [] => None | _ :: _ => Some det end
  /\ match files with
     | [] => r.2.2 = banner W args ++ [error_line "No Python files found!"]
     | _ :: _ => exists analysis, r.2.2 = banner W args ++ analysis
     end.
Proof.
  intros files det r. subst r det.
  destruct files as [|f fs] eqn:E; subst files.
  - pose proof (main_no_files W args None [] E) as Hm.
    change (main W args (None, [])) with (main W args (None, [])) in Hm.
    rewrite Hm. done.
  - assert (find_python_files W (root_of W args) <> []) as Hne by (by rewrite E).
    pose proof (main_files W args None [] Hne) as Hm. cbv zeta in Hm.
    change (main W args (None, [])) with (main W args (None, [])) in Hm.
    rewrite Hm. cbn [fst snd].
    unfold run_detector. rewrite find_duplicates_run. cbn [fst snd]. rewrite E.
    split; [by destruct (duplicates _)|]. split; [done|]. eexists. reflexivity.
Qed.

(** ** The report *)

(** C9: [print_report] prints, after its head, the entries of the recorded
    pairs in the order of [sorted_desc]: all of them, by score descending,
    pairs of equal score in the order of their discovery. *)
Theorem report_sorted_by_score_stable (self : DuplicationDetector) (out : stdout) :
  let sorted_dupes := sorted_desc (duplicates self) in
  print_report (self, out) = (Returned tt, (self, out ++ report_output self))
  /\ match duplicates self with
     | [] => True
     | _ :: _ =>
         exists tasks,
           report_output self
           = report_head (length (duplicates self))
             ++ flat_map entry_lines (Py.enumerate sorted_dupes) ++ tasks
     end
  /\ Permutation sorted_dupes (duplicates self)
  /\ StronglySorted score_ge sorted_dupes
  /\ forall q, filter (fun d => dp_score d == q)%Q sorted_dupes
               = filter (fun d => dp_score d == q)%Q (duplicates self).
Proof.
  intros sorted_dupes. split; [apply print_report_run|]. split.
  - unfold report_output. destruct (duplicates self) eqn:E; [done|].
    eexists. reflexivity.
  - split; [apply sorted_desc_perm|]. split; [apply sorted_desc_sorted|].
    intros q. apply sorted_desc_stable.
Qed.

(** Three pairs of scores 0.9, 1.0 and 0.9 are reported with the exact
    pair first and the two others in the order they came in. *)
Example report_order_sample :
  let b := mkCodeBlock "a.py" 1 5 "x" "h" in
  map (fun d => (dp_ids d, dp_score d))
    (sorted_desc [((0%nat, b), (1%nat, b), (9 # 10)%Q);
                  ((0%nat, b), (2%nat, b), 1%Q);
                  ((1%nat, b), (2%nat, b), (9 # 10)%Q)])
  = [((0%nat, 2%nat), 1%Q); ((0%nat, 1%nat), (9 # 10)%Q);
     ((1%nat, 2%nat), (9 # 10)%Q)].
Proof. reflexivity. Qed.

(** * Further properties *)
(** ** More on the exact pass *)

Lemma enumerate_from_lookup_Some {A} k (l : list A) i x :
  l !! i = Some x -> Py.enumerate_from k l !! i = Some ((k + i)%nat, x).
Proof.
  revert k i. induction l as [|y l IH]; intros k i H; [done|].
  destruct i as [|i]; simpl in *.
  - injection H as ->. by rewrite Nat.add_0_r.
  - rewrite (IH (S k) i H). do 2 f_equal. lia.
Qed.

Lemma enumerate_lookup (bs : list CodeBlock) i a :
  bs !! i = Some a -> Py.enumerate bs !! i = Some (i, a).
Proof. intros H. apply (enumerate_from_lookup_Some 0) in H. done. Qed.

Lemma pairs_from_app_elem l1 (x : obj) l2 y :
  y ∈ l2 -> (x, y, 1%Q) ∈ pairs_from (l1 ++ x :: l2).
Proof.
  intros Hy. induction l1 as [|z l1 IH]; simpl.
  - apply elem_of_app. left. by apply (list_elem_of_fmap_2 (fun y => (x, y, 1%Q))).
  - apply elem_of_app. by right.
Qed.

Lemma hash_groups_fold_cover p groups rest :
  groups_of p groups ->
  (forall o, o ∈ p -> hash o.2 ∈ groups.*1) ->
  forall o, o ∈ p ++ rest ->
    hash o.2
    ∈ (fold_left (fun groups block => group_append (hash block.2) block groups)
         rest groups).*1.
Proof.
  revert p groups. induction rest as [|b rest IH]; intros p groups Hg Hcov o Ho; simpl.
  - rewrite app_nil_r in Ho. by apply Hcov.
  - destruct (groups_of_step p groups b Hg Hcov) as [Hg' Hcov'].
    apply (IH (p ++ [b])); [done|done|]. by rewrite <- app_assoc.
Qed.

Lemma hash_groups_cover objs (o : obj) :
  o ∈ objs -> hash o.2 ∈ (hash_groups_of objs).*1.
Proof.
  intros Ho. apply (hash_groups_fold_cover [] [] objs); [| |done].
  - split; simpl; constructor.
  - intros o' Ho'. by apply elem_of_nil in Ho'.
Qed.

Lemma exact_pairs_complete objs l1 (x : obj) l2 y :
  objs = l1 ++ x :: l2 -> y ∈ l2 -> hash x.2 = hash y.2 ->
  (x, y, 1%Q) ∈ exact_pairs objs.
Proof.
  intros Hobjs Hy Hh.
  assert (x ∈ objs) as Hx by (rewrite Hobjs; apply elem_of_app; right; left).
  apply hash_groups_cover, list_elem_of_fmap in Hx as (g & Hg1 & Hg).
  destruct (hash_groups_of_spec objs) as [_ Hall]. rewrite Forall_forall in Hall.
  pose proof (Hall g Hg) as Hg2.
  unfold exact_pairs. apply list_elem_of_In, in_flat_map. exists g.
  split; [by apply list_elem_of_In|]. apply list_elem_of_In.
  rewrite pairs_from_short, Hg2, Hobjs, filter_app, filter_cons.
  destruct (decide (same_hash g.1 x)) as [_|Hn]; [|by destruct Hn].
  apply pairs_from_app_elem. apply list_elem_of_filter. split; [|done].
  unfold same_hash. by rewrite <- Hh.
Qed.

Lemma filter_all {A} (P : A -> Prop) `{!forall x, Decision (P x)} (l : list A) :
  Forall P l -> filter P l = l.
Proof.
  induction 1 as [|x l Hx Hl IH]; [done|]. rewrite filter_cons, IH.
  by destruct (decide (P x)).
Qed.

Lemma filter_none {A} (P : A -> Prop) `{!forall x, Decision (P x)} (l : list A) :
  Forall (fun x => ~ P x) l -> filter P l = [].
Proof.
  induction 1 as [|x l Hx Hl IH]; [done|]. rewrite filter_cons, IH.
  by destruct (decide (P x)).
Qed.

Lemma filter_flat_map {A B} (P : B -> Prop) `{!forall x, Decision (P x)}
    (f : A -> list B) (l : list A) :
  filter P (flat_map f l) = flat_map (fun x => filter P (f x)) l.
Proof. induction l as [|x l IH]; simpl; [done|]. by rewrite filter_app, IH. Qed.

Lemma pairs_from_length (l : list obj) :
  (2 * length (pairs_from l) = length l * (length l - 1))%nat.
Proof.
  induction l as [|x l IH]; simpl; [done|].
  rewrite length_app, length_map, Nat.sub_0_r. nia.
Qed.

Lemma filter_same_hash_length h k (bs : list CodeBlock) :
  length (filter (same_hash h) (Py.enumerate_from k bs))
  = length (filter (fun b => hash b = h) bs).
Proof.
  revert k. induction bs as [|b bs IH]; intros k; simpl; [done|].
  rewrite !filter_cons. unfold same_hash at 1. simpl.
  destruct (decide (hash b = h)); simpl; by rewrite IH.
Qed.

(** The pairs of the exact pass whose first block has the fingerprint [h]
    are the pairs of the objects of that fingerprint. *)
Lemma exact_pairs_of_hash objs h :
  filter (fun d : DuplicatePair => hash (dp_block1 d) = h) (exact_pairs objs)
  = pairs_from (filter (same_hash h) objs).
Proof.
  unfold exact_pairs. rewrite filter_flat_map.
  pose proof (hash_groups_of_spec objs) as [Hnd Hall].
  assert (forall o, o ∈ objs -> hash o.2 ∈ (hash_groups_of objs).*1) as Hcov
    by apply hash_groups_cover.
  assert (forall gs : list (string * list obj),
            NoDup gs.*1 ->
            Forall (fun g => g.2 = filter (same_hash g.1) objs) gs ->
            flat_map (fun g : string * list obj =>
                        filter (fun d : DuplicatePair => hash (dp_block1 d) = h)
                          (if (1 <? Z.of_nat (length g.2))%Z then pairs_from g.2
                           else [])) gs
            = if decide (h ∈ gs.*1) then pairs_from (filter (same_hash h) objs)
              else []) as Hgs.
  { induction gs as [|g gs IH]; intros Hn Ha.
    - rewrite decide_False; [done|]. intros Hin. by apply elem_of_nil in Hin.
    - apply NoDup_cons in Hn as [Hg Hn]. apply Forall_cons in Ha as [Hg' Ha].
      cbn [flat_map]. rewrite pairs_from_short, (IH Hn Ha).
      destruct (decide (g.1 = h)) as [E|E].
      + rewrite <- E in *. rewrite (decide_False (P := g.1 ∈ gs.*1)) by done.
        rewrite decide_True by (rewrite fmap_cons; left).
        rewrite app_nil_r, <- Hg'. apply filter_all. apply Forall_forall.
        intros d Hd. apply elem_of_pairs_from in Hd as (_ & Hd & _).
        rewrite Hg' in Hd. by apply list_elem_of_filter in Hd as [Hd _].
      + rewrite (filter_none _ (pairs_from g.2)).
        * rewrite app_nil_l. destruct (decide (h ∈ gs.*1)) as [Hin|Hin].
          -- rewrite decide_True; [done|]. rewrite fmap_cons. by right.
          -- rewrite decide_False; [done|]. rewrite fmap_cons.
             intros [?|?]%elem_of_cons; [by destruct E|done].
        * apply Forall_forall. intros d Hd Hh.
          apply elem_of_pairs_from in Hd as (_ & Hd & _).
          rewrite Hg' in Hd. apply list_elem_of_filter in Hd as [Hd _].
          apply E. unfold same_hash, dp_block1 in *. congruence. }
  rewrite (Hgs _ Hnd Hall).
  destruct (decide (h ∈ (hash_groups_of objs).*1)) as [Hin|Hn]; [done|].
  rewrite (filter_none (same_hash h) objs); [done|].
  apply Forall_forall. intros o Ho Hh. apply Hn. rewrite <- Hh. by apply Hcov.
Qed.

Lemma filter_and_l {A} (P Q : A -> Prop) `{!forall x, Decision (P x)}
    `{!forall x, Decision (Q x)} (l : list A) :
  Forall P l -> filter (fun x => P x /\ Q x) l = filter Q l.
Proof.
  induction 1 as [|x l Hx Hl IH]; [done|]. rewrite !filter_cons, IH.
  destruct (decide (Q x)), (decide (P x /\ Q x)) as [?|Hn]; try done.
  - destruct Hn. done.
  - tauto.
Qed.

Section MorePasses.
Variable W : World.

(** *** What the similarity pass does not miss *)

Lemma sim_trace_seen_mono fr fr' new cands :
  sim_trace W fr fr' new cands -> seen_pairs fr ⊆ seen_pairs fr'.
Proof. intros (_ & H & _). rewrite H. apply union_subseteq_l. Qed.

Lemma similarity_step_covers block1 block2 fr :
  passes_guards W (similarity_threshold (self fr)) (block1, block2) ->
  pair_key block1.2 block2.2 ∈ seen_pairs (similarity_step_frame W block1 block2 fr).
Proof.
  intros (Hov & Hle & Hlt). simpl in *. unfold similarity_step_frame. rewrite Hov.
  destruct (bool_decide _) eqn:Hseen; [by apply bool_decide_eq_true in Hseen|].
  apply Qle_bool_iff in Hle. rewrite Hle. unfold Qltb.
  destruct (Qle_bool 1 _) eqn:E.
  - apply Qle_bool_iff in E. by apply Qle_not_lt in E.
  - simpl. apply elem_of_union_r. by apply elem_of_singleton.
Qed.

Lemma similarity_inner_trace block1 l fr :
  exists new,
    sim_trace W fr
      (fold_left (fun fr block2 => similarity_step_frame W block1 block2 fr) l fr)
      new (map (fun block2 => (block1, block2)) l).
Proof.
  revert fr. induction l as [|b l IH]; intros fr; simpl.
  - exists []. apply sim_trace_refl.
  - destruct (similarity_step_trace W block1 b fr) as [n1 H1].
    destruct (IH (similarity_step_frame W block1 b fr)) as [n2 H2].
    exists (n1 ++ n2). apply (sim_trace_app _ _ _ _ _ _ _ _ H1 H2).
Qed.

Lemma similarity_inner_covers block1 l fr block2 :
  block2 ∈ l ->
  passes_guards W (similarity_threshold (self fr)) (block1, block2) ->
  pair_key block1.2 block2.2
  ∈ seen_pairs
      (fold_left (fun fr b => similarity_step_frame W block1 b fr) l fr).
Proof.
  revert fr. induction l as [|b l IH]; intros fr Hin Hg; simpl.
  - by apply elem_of_nil in Hin.
  - destruct (similarity_step_trace W block1 b fr) as [n1 H1].
    apply elem_of_cons in Hin as [->|Hin].
    + destruct (similarity_inner_trace block1 l (similarity_step_frame W block1 b fr))
        as [n2 H2].
      apply (sim_trace_seen_mono _ _ _ _ H2). by apply similarity_step_covers.
    + apply IH; [done|]. by rewrite (sim_trace_threshold _ _ _ _ _ H1).
Qed.

Lemma similarity_fold_covers objs todo fr (c : obj * obj) :
  c ∈ candidates objs todo ->
  passes_guards W (similarity_threshold (self fr)) c ->
  pair_key c.1.2 c.2.2
  ∈ seen_pairs
      (fold_left (fun fr block1 => similarity_outer_frame W objs block1 fr) todo fr).
Proof.
  revert fr. induction todo as [|b todo IH]; intros fr Hin Hg.
  - by apply elem_of_nil in Hin.
  - unfold candidates in Hin. cbn [flat_map] in Hin. cbn [fold_left].
    destruct (similarity_outer_trace W objs b fr) as [n1 H1].
    apply elem_of_app in Hin as [Hin|Hin].
    + apply list_elem_of_fmap in Hin as (b2 & -> & Hb2).
      destruct (similarity_fold_trace W objs todo (similarity_outer_frame W objs b fr))
        as [n2 H2].
      apply (sim_trace_seen_mono _ _ _ _ H2).
      unfold similarity_outer_frame. rewrite later_objs_drop.
      by apply similarity_inner_covers.
    + apply IH; [done|]. by rewrite (sim_trace_threshold _ _ _ _ _ H1).
Qed.

(** The run, with what the similarity pass covered. *)
Lemma run_detector_covers min thr files uf (c : obj * obj) :
  let det := run_detector W min thr files uf in
  c ∈ candidates (Py.enumerate (blocks det)) (Py.enumerate (blocks det)) ->
  passes_guards W thr c ->
  exists d, d ∈ duplicates det /\ (dp_score d < 1)%Q
            /\ dp_key d = pair_key c.1.2 c.2.2.
Proof.
  intros det Hc Hg. subst det. unfold run_detector in *.
  rewrite find_duplicates_run in *. cbn [fst snd] in *.
  unfold found in *. set (bs := found_blocks W files uf (fresh_frame min thr)) in *.
  set (objs := Py.enumerate bs) in *.
  set (fr0 := mkFrame (mkDetector _ _ _ _) ∅) in *.
  destruct (similarity_pass_trace W objs fr0) as [new Ht].
  pose proof (sim_trace_fields W _ _ _ _ Ht) as (_ & _ & Hb & Hd).
  rewrite Hb in Hc. simpl in Hc.
  pose proof (similarity_fold_covers objs objs fr0 c Hc Hg) as Hseen.
  fold (similarity_pass_frame W objs fr0) in Hseen.
  destruct Ht as (_ & Hs & _ & Hrec & _). rewrite Hs in Hseen. simpl in Hseen.
  apply elem_of_union in Hseen as [Hseen|Hseen]; [by apply elem_of_empty in Hseen|].
  apply elem_of_list_to_set, list_elem_of_fmap in Hseen as (d & Hk & Hin).
  exists d. rewrite Hd. split; [apply elem_of_app; by right|].
  rewrite Forall_forall in Hrec. destruct (Hrec d Hin) as (_ & _ & _ & Hlt). done.
Qed.

Lemma candidates_of_positions (bs : list CodeBlock) i j a b :
  (i < j)%nat -> bs !! i = Some a -> bs !! j = Some b ->
  ((i, a), (j, b)) ∈ candidates (Py.enumerate bs) (Py.enumerate bs).
Proof.
  intros Hij Ha Hb. unfold candidates. apply list_elem_of_In, in_flat_map.
  exists (i, a). split.
  - apply list_elem_of_In. eapply list_elem_of_lookup_2. by apply enumerate_lookup.
  - apply list_elem_of_In. apply (list_elem_of_fmap_2 (fun b2 => ((i, a), b2))).
    simpl. apply (list_elem_of_lookup_2 _ (j - S i)%nat). rewrite lookup_drop.
    replace (S i + (j - S i))%nat with j by lia. by apply enumerate_lookup.
Qed.

(** The blocks of a recorded pair are blocks of [self.blocks]. *)
Lemma recorded_blocks_stored min thr files uf :
  let det := run_detector W min thr files uf in
  Forall (fun d => dp_block1 d ∈ blocks det /\ dp_block2 d ∈ blocks det)
    (duplicates det).
Proof.
  intros det. subst det.
  destruct (run_detector_shape W min thr files uf) as (new & Hrun & Hsub & _).
  rewrite Hrun. simpl. apply Forall_app. split.
  - apply Forall_forall. intros d Hd.
    apply exact_pairs_elem in Hd as (_ & H1 & H2 & _). split; by apply enumerate_block.
  - apply sim_new_ids in Hsub as [Hobjs _].
    eapply Forall_impl; [exact Hobjs|]. intros d (H1 & H2 & _).
    split; by apply enumerate_block.
Qed.

(** The positions of a recorded pair: the first below the second, both
    in [self.blocks]. *)
Lemma recorded_ids_in_range min thr files uf :
  let det := run_detector W min thr files uf in
  Forall (fun d => (dp_id1 d < dp_id2 d < length (blocks det))%nat) (duplicates det).
Proof.
  intros det. subst det.
  destruct (run_detector_shape W min thr files uf) as (new & Hrun & Hsub & _).
  rewrite Hrun. simpl. set (bs := flat_map (extracted W uf min) files) in *.
  pose proof (enumerate_sorted bs) as Hs.
  apply Forall_app. split.
  - apply Forall_forall. intros d Hd.
    apply exact_pairs_elem in Hd as (_ & _ & H2 & _ & Hlt).
    split; [by apply Hlt|]. apply enumerate_elem_of in H2.
    by apply lookup_lt_Some in H2.
  - apply sim_new_ids in Hsub as [Hobjs _].
    eapply Forall_impl; [exact Hobjs|]. intros d (_ & H2 & Hlt).
    split; [done|]. apply enumerate_elem_of in H2. by apply lookup_lt_Some in H2.
Qed.

End MorePasses.

(** ** The order of the report *)

Lemma sorted_desc_exact_first (l : list DuplicatePair) :
  StronglySorted score_ge l ->
  Forall (fun d => (dp_score d <= 1)%Q) l ->
  l = filter (fun d => (dp_score d == 1)%Q) l
      ++ filter (fun d => ~ (dp_score d == 1)%Q) l.
Proof.
  induction l as [|x l IH]; intros Hs Hle; [done|].
  apply StronglySorted_inv in Hs as [Hs Hx]. apply Forall_cons in Hle as [Hx1 Hle].
  rewrite !filter_cons.
  destruct (decide (dp_score x == 1)%Q) as [E|E].
  - destruct (decide (~ (dp_score x == 1)%Q)) as [?|_]; [done|].
    simpl. f_equal. by apply IH.
  - destruct (decide (~ (dp_score x == 1)%Q)) as [_|?]; [|done].
    assert (dp_score x < 1)%Q as Hlt.
    { apply Qle_lt_or_eq in Hx1 as [?|?]; [done|by destruct E]. }
    assert (Forall (fun d => ~ (dp_score d == 1)%Q) l) as Hn.
    { eapply Forall_impl; [exact Hx|]. intros d Hd Hd1. unfold score_ge in Hd.
      rewrite Hd1 in Hd. by apply Qle_not_lt in Hd. }
    rewrite (filter_none (fun d => (dp_score d == 1)%Q) l) by done.
    rewrite (filter_all _ l Hn). reflexivity.
Qed.

(** ** The groups of the remediation tasks *)

Lemma file_groups_step l groups (d : DuplicatePair) :
  file_groups_hold l groups ->
  file_groups_hold (l ++ [d]) (group_append (file_path (dp_block1 d)) d groups).
Proof.
  intros (Hnd & Hall & Hperm). unfold file_groups_hold.
  destruct (decide (file_path (dp_block1 d) ∈ groups.*1)) as [Hin|Hnin].
  - destruct (group_append_old _ d _ Hin) as (g1 & ds & g2 & -> & ->).
    rewrite !fmap_app, !fmap_cons in *. cbn [fst snd] in *.
    apply Forall_app in Hall as [Ha1 Ha2]. apply Forall_cons in Ha2 as [[_ Ha2] Ha3].
    split; [done|]. split.
    + apply Forall_app. split; [done|]. apply Forall_cons. split; [|done].
      cbn [fst snd]. split; [by destruct ds|]. apply Forall_app. split; [done|].
      by apply Forall_singleton.
    + rewrite concat_app, concat_cons in *. rewrite <- Hperm.
      rewrite <- !app_assoc. do 2 apply Permutation_app_head.
      apply Permutation_app_comm.
  - rewrite group_append_new by done. rewrite !fmap_app. simpl. split; [|split].
    + apply NoDup_app. split; [done|]. split; [|apply NoDup_singleton].
      intros k Hk Hk'. apply list_elem_of_singleton in Hk' as ->. done.
    + apply Forall_app. split; [done|]. apply Forall_singleton. simpl.
      split; [done|]. by apply Forall_singleton.
    + rewrite concat_app. simpl. by rewrite Hperm.
Qed.

Lemma file_groups_fold l groups rest :
  file_groups_hold l groups ->
  file_groups_hold (l ++ rest)
    (fold_left (fun groups d => group_append (file_path (dp_block1 d)) d groups)
       rest groups).
Proof.
  revert l groups. induction rest as [|d rest IH]; intros l groups H; simpl.
  - by rewrite app_nil_r.
  - replace (l ++ d :: rest) with ((l ++ [d]) ++ rest) by (by rewrite <- app_assoc).
    by apply IH, file_groups_step.
Qed.

Lemma file_groups_of_hold l : file_groups_hold l (file_groups_of l).
Proof.
  apply (file_groups_fold [] [] l). split; [constructor|]. split; [constructor|done].
Qed.

(** ** The key of a pair *)

Lemma uint_no_colon d : Py.count ":" (NilEmpty.string_of_uint d) = 0%nat.
Proof. induction d; simpl; done. Qed.

Lemma str_no_colon z : Py.count ":" (Py.str z) = 0%nat.
Proof.
  unfold Py.str. destruct (Z.to_int z) as [d|d]; simpl;
    destruct d; simpl; try done; apply uint_no_colon.
Qed.

Lemma str_inj z z' : Py.str z = Py.str z' -> z = z'.
Proof.
  unfold Py.str. intros H.
  assert (forall z, Z.to_int z <> Decimal.Pos Decimal.Nil
                    /\ Z.to_int z <> Decimal.Neg Decimal.Nil) as Hn.
  { intros [|p|p]; simpl; split; try discriminate; intros [= E];
      by apply (DecimalPos.Unsigned.to_uint_nonnil p). }
  destruct (Hn z) as [H1 H2], (Hn z') as [H1' H2'].
  pose proof (NilZero.isi _ H1 H2) as E. rewrite H in E.
  rewrite (NilZero.isi _ H1' H2') in E. injection E as E.
  by rewrite <- (DecimalZ.of_to z), <- (DecimalZ.of_to z'), E.
Qed.

Lemma append_nil_l t : EmptyString +:+ t = t.
Proof. reflexivity. Qed.

Lemma append_cons c s t : String c s +:+ t = String c (s +:+ t).
Proof. reflexivity. Qed.

Lemma count_colon_app p d :
  Py.count ":" (p +:+ String ":" d) <> 0%nat.
Proof.
  induction p as [|c p IH].
  - rewrite append_nil_l. simpl. lia.
  - rewrite append_cons. simpl. lia.
Qed.

Lemma key_string_inj p p' d d' :
  Py.count ":" d = 0%nat -> Py.count ":" d' = 0%nat ->
  p +:+ String ":" d = p' +:+ String ":" d' -> p = p' /\ d = d'.
Proof.
  intros Hd Hd'. revert p'. induction p as [|c p IH]; intros p' H.
  - destruct p' as [|c' p']; rewrite ?append_nil_l, ?append_cons in H.
    + by injection H.
    + injection H as _ H. rewrite H in Hd. by apply count_colon_app in Hd.
  - destruct p' as [|c' p']; rewrite ?append_nil_l, ?append_cons in H.
    + injection H as _ H. rewrite <- H in Hd'. by apply count_colon_app in Hd'.
    + injection H as -> H. apply IH in H as [-> ->]. done.
Qed.

(** ** More properties of the two passes *)

(** X1: two blocks of [self.blocks] with the same fingerprint are recorded
    as a pair of score 1.0, the earlier block first. *)
Theorem equal_fingerprints_are_paired W min thr files uf (i j : nat)
    (a b : CodeBlock) :
  (i < j)%nat ->
  blocks (run_detector W min thr files uf) !! i = Some a ->
  blocks (run_detector W min thr files uf) !! j = Some b ->
  hash a = hash b ->
  ((i, a), (j, b), 1%Q) ∈ duplicates (run_detector W min thr files uf).
Proof.
  intros Hij Ha Hb Hh.
  destruct (run_detector_shape W min thr files uf) as (new & Hrun & _).
  rewrite Hrun in *. simpl in *. apply elem_of_app. left.
  set (objs := Py.enumerate (flat_map (extracted W uf min) files)).
  apply (exact_pairs_complete objs (take i objs) (i, a) (drop (S i) objs)).
  - symmetry. apply take_drop_middle. by apply enumerate_lookup.
  - apply (list_elem_of_lookup_2 _ (j - S i)%nat). rewrite lookup_drop.
    replace (S i + (j - S i))%nat with j by lia. by apply enumerate_lookup.
  - done.
Qed.

Lemma equal_fingerprints_are_paired_witness :
  let det := run_detector Sample.world 5 (8 # 10) ["a.py"] false in
  let a := window_block Sample.world "a.py" Sample.a_lines 0 5 in
  let b := window_block Sample.world "a.py" Sample.a_lines 1 5 in
  (0 < 2)%nat /\ blocks det !! 0%nat = Some a /\ blocks det !! 2%nat = Some b
  /\ hash a = hash b
  /\ ((0%nat, a), (2%nat, b), 1%Q) ∈ duplicates det.
Proof.
  intros det a b.
  assert (blocks det !! 0%nat = Some a) as Ha by (by vm_compute).
  assert (blocks det !! 2%nat = Some b) as Hb by (by vm_compute).
  assert (hash a = hash b) as Hh by (by vm_compute).
  split; [lia|]. split; [exact Ha|]. split; [exact Hb|]. split; [exact Hh|].
  exact (equal_fingerprints_are_paired Sample.world 5 (8 # 10) ["a.py"] false
           0 2 a b (Nat.lt_0_succ 1) Ha Hb Hh).
Defined.

(** X2: [k] blocks of one fingerprint give [k (k - 1) / 2] pairs of score
    1.0. *)
Theorem exact_pairs_per_fingerprint W min thr files uf (h : string) :
  let det := run_detector W min thr files uf in
  let k := length (filter (fun b => hash b = h) (blocks det)) in
  (2 * length (filter (fun d : DuplicatePair =>
                         (dp_score d == 1)%Q /\ hash (dp_block1 d) = h)
                 (duplicates det))
   = k * (k - 1))%nat.
Proof.
  intros det k. subst det k.
  destruct (run_detector_shape W min thr files uf) as (new & Hrun & _ & Hrec & _).
  rewrite Hrun. cbn [duplicates blocks].
  set (bs := flat_map (extracted W uf min) files).
  rewrite filter_app.
  rewrite (filter_none _ new).
  2:{ eapply Forall_impl; [exact Hrec|]. intros d (_ & _ & _ & Hlt) [He _].
      rewrite He in Hlt. by apply Qlt_irrefl in Hlt. }
  rewrite app_nil_r, filter_and_l.
  2:{ apply Forall_forall. intros d Hd. apply exact_pairs_elem in Hd as (-> & _).
      reflexivity. }
  rewrite exact_pairs_of_hash, pairs_from_length.
  unfold Py.enumerate.
  by rewrite filter_same_hash_length.
Qed.

(** X3: a recorded pair holds two objects of [self.blocks], the one at
    the smaller position first; no block is paired with itself. *)
Theorem recorded_pairs_are_ordered_objects W min thr files uf :
  let det := run_detector W min thr files uf in
  Forall (fun d =>
            (dp_id1 d < dp_id2 d)%nat
            /\ blocks det !! dp_id1 d = Some (dp_block1 d)
            /\ blocks det !! dp_id2 d = Some (dp_block2 d))
    (duplicates det).
Proof.
  intros det. subst det.
  destruct (run_detector_shape W min thr files uf) as (new & Hrun & Hsub & _).
  rewrite Hrun. simpl. set (bs := flat_map (extracted W uf min) files) in *.
  pose proof (enumerate_sorted bs) as Hs.
  apply Forall_app. split.
  - apply Forall_forall. intros d Hd.
    apply exact_pairs_elem in Hd as (_ & H1 & H2 & _ & Hlt).
    split; [by apply Hlt|]. split; by apply enumerate_elem_of.
  - apply sim_new_ids in Hsub as [Hobjs _].
    eapply Forall_impl; [exact Hobjs|]. intros d (H1 & H2 & Hlt).
    split; [done|]. split; by apply enumerate_elem_of.
Qed.

(** X4: a pair recorded with a score below 1.0 never holds two blocks of
    one file whose line ranges overlap. *)
Theorem similar_pairs_do_not_overlap W min thr files uf :
  Forall (fun d =>
            (dp_score d < 1)%Q ->
            file_path (dp_block1 d) = file_path (dp_block2 d) ->
            (end_line (dp_block1 d) < start_line (dp_block2 d)
             \/ end_line (dp_block2 d) < start_line (dp_block1 d))%Z)
    (duplicates (run_detector W min thr files uf)).
Proof.
  destruct (run_detector_shape W min thr files uf) as (new & Hrun & _ & Hrec & _).
  rewrite Hrun. simpl. apply Forall_app. split.
  - apply Forall_forall. intros d Hd Hlt.
    apply exact_pairs_elem in Hd as (Hs & _). rewrite Hs in Hlt.
    by apply Qlt_irrefl in Hlt.
  - eapply Forall_impl; [exact Hrec|]. intros d (Hov & _) _ Hf.
    unfold same_file_overlap in Hov. rewrite Hf, String.eqb_refl in Hov.
    simpl in Hov. apply negb_false_iff, orb_true_iff in Hov. lia.
Qed.

(** X5: with a threshold of 1.0 or more the similarity pass records
    nothing: the recorded pairs are those of the exact pass. *)
Theorem threshold_one_keeps_exact_pairs_only W min thr files uf :
  (1 <= thr)%Q ->
  duplicates (run_detector W min thr files uf)
  = exact_pairs (Py.enumerate (blocks (run_detector W min thr files uf))).
Proof.
  intros Hthr.
  destruct (run_detector_shape W min thr files uf) as (new & Hrun & _ & Hrec & _).
  rewrite Hrun. simpl. destruct new as [|d new]; [by rewrite app_nil_r|].
  apply Forall_cons in Hrec as [(_ & _ & Hle & Hlt) _].
  exfalso. apply (Qlt_irrefl 1). apply Qle_lt_trans with (dp_score d); [|done].
  by apply Qle_trans with thr.
Qed.

Lemma threshold_one_keeps_exact_pairs_only_witness :
  (1 <= 1)%Q
  /\ duplicates (run_detector Sample.world 5 1 ["a.py"; "b.py"] false)
     = exact_pairs
         (Py.enumerate (blocks (run_detector Sample.world 5 1 ["a.py"; "b.py"] false))).
Proof.
  split; [apply Qle_refl|].
  exact (threshold_one_keeps_exact_pairs_only Sample.world 5 1 ["a.py"; "b.py"] false
           (Qle_refl 1)).
Defined.

(** X6: two blocks whose contents differ in whitespace only are never
    recorded: a recorded pair whose blocks split into the same words has
    two identical contents (the digest taken as free of collisions, the
    matcher as matching a text with itself in full). *)
Theorem whitespace_variants_are_not_recorded W min thr files uf :
  md5_collision_free W -> matching_reflexive W ->
  Forall (fun d =>
            Py.split (content (dp_block1 d)) = Py.split (content (dp_block2 d)) ->
            content (dp_block1 d) = content (dp_block2 d))
    (duplicates (run_detector W min thr files uf)).
Proof.
  intros Hf Hm. pose proof (blocks_hash W min thr files uf) as Hh.
  pose proof (recorded_blocks_stored W min thr files uf) as Hst. cbv zeta in Hst.
  destruct (run_detector_shape W min thr files uf) as (new & Hrun & _ & Hrec & _).
  rewrite Hrun in *. simpl in *. rewrite Forall_forall in Hh.
  apply Forall_app in Hst as [Hst1 Hst2]. apply Forall_app. split.
  - rewrite Forall_forall in Hst1 |- *. intros d Hd _.
    destruct (Hst1 d Hd) as [H1 H2].
    apply (same_hash_same_content W _ _ Hf (Hh _ H1) (Hh _ H2)).
    by apply exact_pairs_elem in Hd as (_ & _ & _ & Hd & _).
  - eapply Forall_impl; [exact Hrec|]. intros d (_ & Hs & _ & Hlt) Hsp.
    exfalso. unfold calculate_similarity in Hs. rewrite Hsp in Hs.
    pose proof (ratio_refl W (Py.join " " (Py.split (content (dp_block2 d)))) Hm) as Hr.
    rewrite <- Hs in Hr. rewrite Hr in Hlt. by apply Qlt_irrefl in Hlt.
Qed.

Lemma whitespace_variants_are_not_recorded_witness :
  md5_collision_free Sample.world /\ matching_reflexive Sample.world
  /\ Forall (fun d =>
               Py.split (content (dp_block1 d)) = Py.split (content (dp_block2 d)) ->
               content (dp_block1 d) = content (dp_block2 d))
       (duplicates (run_detector Sample.world 5 (8 # 10) ["a.py"; "b.py"] false)).
Proof.
  split; [exact SampleFacts.digest_collision_free|].
  split; [exact SampleFacts.matching_reflexive|].
  exact (whitespace_variants_are_not_recorded Sample.world 5 (8 # 10)
           ["a.py"; "b.py"] false SampleFacts.digest_collision_free
           SampleFacts.matching_reflexive).
Defined.

(** X7: the similarity pass misses no key: for two blocks of
    [self.blocks] that are not overlapping blocks of one file and whose
    similarity reaches the threshold and is below 1.0, a pair of score
    below 1.0 is recorded under their key. *)
Theorem similar_blocks_are_represented W min thr files uf (i j : nat)
    (a b : CodeBlock) :
  (i < j)%nat ->
  blocks (run_detector W min thr files uf) !! i = Some a ->
  blocks (run_detector W min thr files uf) !! j = Some b ->
  same_file_overlap a b = false ->
  (thr <= calculate_similarity W a b)%Q ->
  (calculate_similarity W a b < 1)%Q ->
  exists d,
    d ∈ duplicates (run_detector W min thr files uf)
    /\ (dp_score d < 1)%Q
    /\ dp_key d = pair_key a b.
Proof.
  intros Hij Ha Hb Hov Hle Hlt.
  apply (run_detector_covers W min thr files uf ((i, a), (j, b))).
  - by apply candidates_of_positions.
  - done.
Qed.

Lemma similar_blocks_are_represented_witness :
  let det := run_detector Sample.world 5 (8 # 10) ["a.py"; "b.py"] false in
  let a := window_block Sample.world "a.py" Sample.a_lines 0 6 in
  let b := window_block Sample.world "b.py" (Py.readlines Sample.b_py) 0 5 in
  (1 < 3)%nat /\ blocks det !! 1%nat = Some a /\ blocks det !! 3%nat = Some b
  /\ same_file_overlap a b = false
  /\ (8 # 10 <= calculate_similarity Sample.world a b)%Q
  /\ (calculate_similarity Sample.world a b < 1)%Q
  /\ exists d, d ∈ duplicates det /\ (dp_score d < 1)%Q /\ dp_key d = pair_key a b.
Proof.
  intros det a b.
  assert (blocks det !! 1%nat = Some a) as Ha by (by vm_compute).
  assert (blocks det !! 3%nat = Some b) as Hb by (by vm_compute).
  assert (same_file_overlap a b = false) as Hov by (by vm_compute).
  assert (8 # 10 <= calculate_similarity Sample.world a b)%Q as Hle
    by (apply Qle_bool_iff; by vm_compute).
  assert (calculate_similarity Sample.world a b < 1)%Q as Hlt by (by vm_compute).
  assert (1 < 3)%nat as Hij by lia.
  split; [exact Hij|]. split; [exact Ha|]. split; [exact Hb|]. split; [exact Hov|].
  split; [exact Hle|]. split; [exact Hlt|].
  exact (similar_blocks_are_represented Sample.world 5 (8 # 10) ["a.py"; "b.py"]
           false 1 3 a b Hij Ha Hb Hov Hle Hlt).
Defined.

(** ** More on the extraction *)

Lemma window_kept_counts stripped :
  window_kept stripped = true
  <-> (20 <= Py.len stripped)%nat
      /\ (2 * Py.count "#" stripped <= length (Py.splitlines stripped))%nat.
Proof.
  rewrite window_kept_spec.
  set (c := Py.count "#" stripped). set (n := length (Py.splitlines stripped)).
  assert ((1 # 2 < Z.of_nat c # Pos.of_nat n)%Q <-> (n < 2 * c)%nat) as ->.
  { unfold Qlt. simpl. destruct n as [|n]; simpl; lia. }
  lia.
Qed.

Lemma range_NoDup lo hi : NoDup (Py.range lo hi).
Proof.
  unfold Py.range. apply NoDup_fmap_2; [intros ???; lia|]. apply NoDup_ListNoDup, seq_NoDup.
Qed.

Lemma range_length lo hi : length (Py.range lo hi) = Z.to_nat (hi - lo).
Proof. unfold Py.range. by rewrite length_map, length_seq. Qed.

Lemma candidate_windows_NoDup min n : NoDup (candidate_windows min n).
Proof.
  unfold candidate_windows. generalize (range_NoDup 0 (n - min + 1)).
  induction (Py.range 0 (n - min + 1)) as [|i l IH]; intros Hn; simpl; [constructor|].
  apply NoDup_cons in Hn as [Hi Hn]. apply NoDup_app. split; [|split; [|by apply IH]].
  - apply NoDup_fmap_2; [by intros ?? [=]|]. apply range_NoDup.
  - intros c H1 H2. apply list_elem_of_fmap in H1 as (w & -> & _).
    apply list_elem_of_In, in_flat_map in H2 as (i' & Hi' & H2).
    apply in_map_iff in H2 as (w' & [= <- _] & _). by apply list_elem_of_In in Hi'.
Qed.

Lemma candidate_windows_length min n :
  (1 <= min)%Z ->
  (length (candidate_windows min n) <= 49 * Z.to_nat n)%nat.
Proof.
  intros Hmin. unfold candidate_windows.
  assert (forall l : list Z,
            (length (flat_map (fun i => map (fun w => (i, w))
                       (Py.range min (Z.min 50 (n - i + 1)))) l)
             <= 49 * length l)%nat) as H.
  { induction l as [|i l IH]; simpl; [lia|].
    rewrite length_app, length_map, range_length. lia. }
  etrans; [apply H|]. rewrite range_length. lia.
Qed.

Section MoreExtraction.
Variable W : World.

Lemma code_blocks_ranges_sublist path lines (cs : list (Z * Z)) :
  sublist
    (map (fun b => (start_line b, end_line b))
       (flat_map (fun c => window_blocks W path lines c.1 c.2) cs))
    (map (fun c : Z * Z => (c.1 + 1, c.1 + c.2)%Z) cs).
Proof.
  induction cs as [|c cs IH]; simpl; [constructor|].
  unfold window_blocks at 1. destruct (window_kept _); simpl.
  - by apply sublist_skip.
  - by apply sublist_cons.
Qed.

Lemma code_blocks_ranges_NoDup min path lines :
  NoDup (map (fun b => (start_line b, end_line b)) (code_blocks W min path lines)).
Proof.
  unfold code_blocks. destruct (_ <? _)%Z; [constructor|].
  eapply sublist_NoDup; [|apply code_blocks_ranges_sublist].
  apply NoDup_fmap_2; [|apply candidate_windows_NoDup].
  intros [i w] [i' w'] [= H1 H2]. simpl in *. f_equal; lia.
Qed.

Lemma code_blocks_length min path lines :
  (1 <= min)%Z ->
  (length (code_blocks W min path lines) <= 49 * length lines)%nat.
Proof.
  intros Hmin. unfold code_blocks. destruct (_ <? _)%Z; simpl; [lia|].
  pose proof (candidate_windows_length min (Z.of_nat (length lines)) Hmin) as Hc.
  rewrite Nat2Z.id in Hc. etrans; [|exact Hc]. clear Hc.
  induction (candidate_windows _ _) as [|c cs IH]; simpl; [done|].
  rewrite length_app. unfold window_blocks at 1. destruct (window_kept _); simpl; lia.
Qed.

Lemma extract_code_blocks_run self path l out :
  extract_code_blocks W self path (l, out)
  = (Returned (extracted W false (min_lines self) path),
     (extracted W false (min_lines self) path, out ++ extract_output W false path)).
Proof. apply (extract_run W false). Qed.


End MoreExtraction.

(** X8: window mode on a readable file prints nothing and returns exactly
    the blocks of the windows of [min_lines] to 49 lines that lie in the
    file, have 20 characters or more once stripped and at most one hash
    sign for two lines; a block holds the first and last line number of
    its window and the stripped text of these lines. *)
Theorem window_mode_blocks W self path text l out (b : CodeBlock) :
  read_text W path = Ok text ->
  let lines := Py.readlines text in
  exists bs,
    extract_code_blocks W self path (l, out) = (Returned bs, (bs, out))
    /\ (b ∈ bs <->
        exists i w,
          (0 <= i)%Z /\ (min_lines self <= w <= 49)%Z
          /\ (i + w <= Z.of_nat (length lines))%Z
          /\ let stripped :=
               Py.strip (Py.join EmptyString (Py.slice lines i (i + w))) in
             (20 <= Py.len stripped)%nat
             /\ (2 * Py.count "#" stripped <= length (Py.splitlines stripped))%nat
             /\ b = CodeBlock_init W path (i + 1) (i + w) stripped).
Proof.
  intros Hr lines. rewrite extract_code_blocks_run.
  unfold extracted, extract_output. rewrite Hr. rewrite app_nil_r.
  eexists. split; [reflexivity|]. fold lines. rewrite code_blocks_elem. split.
  - intros (i & w & Hc & Hk & ->). exists i, w.
    apply candidate_windows_elem in Hc. apply window_kept_counts in Hk as [H1 H2].
    repeat split; try lia; done.
  - intros (i & w & Hi & Hw & Hn & H1 & H2 & ->). exists i, w. split; [|split].
    + apply candidate_windows_elem. lia.
    + by apply window_kept_counts.
    + done.
Qed.

Lemma window_mode_blocks_witness :
  read_text Sample.world "a.py" = Ok Sample.a_py
  /\ exists bs,
       extract_code_blocks Sample.world Sample.detector "a.py" ([], [])
       = (Returned bs, (bs, []))
       /\ (window_block Sample.world "a.py" Sample.a_lines 1 5 ∈ bs <->
           exists i w,
             (0 <= i)%Z /\ (5 <= w <= 49)%Z
             /\ (i + w <= Z.of_nat (length Sample.a_lines))%Z
             /\ let stripped :=
                  Py.strip (Py.join EmptyString (Py.slice Sample.a_lines i (i + w))) in
                (20 <= Py.len stripped)%nat
                /\ (2 * Py.count "#" stripped <= length (Py.splitlines stripped))%nat
                /\ window_block Sample.world "a.py" Sample.a_lines 1 5
                   = CodeBlock_init Sample.world "a.py" (i + 1) (i + w) stripped).
Proof.
  split; [reflexivity|].
  exact (window_mode_blocks Sample.world Sample.detector "a.py" Sample.a_py [] []
           (window_block Sample.world "a.py" Sample.a_lines 1 5) eq_refl).
Defined.

(** X9: window mode gives no block and prints nothing for a readable file
    of fewer than [min_lines] lines. *)
Theorem short_file_gives_no_block W self path text l out :
  read_text W path = Ok text ->
  (Z.of_nat (length (Py.readlines text)) < min_lines self)%Z ->
  extract_code_blocks W self path (l, out) = (Returned [], ([], out)).
Proof.
  intros Hr Hn. rewrite extract_code_blocks_run.
  unfold extracted, extract_output, code_blocks. rewrite Hr.
  apply Z.ltb_lt in Hn. rewrite Hn. by rewrite app_nil_r.
Qed.

Lemma short_file_gives_no_block_witness :
  read_text Sample.world "b.py" = Ok Sample.b_py
  /\ (Z.of_nat (length (Py.readlines Sample.b_py)) < 6)%Z
  /\ extract_code_blocks Sample.world (DuplicationDetector_init 6 (8 # 10)) "b.py"
       ([], [])
     = (Returned [], ([], [])).
Proof.
  assert (Z.of_nat (length (Py.readlines Sample.b_py)) < 6)%Z as Hn by (by vm_compute).
  split; [reflexivity|]. split; [exact Hn|].
  exact (short_file_gives_no_block Sample.world (DuplicationDetector_init 6 (8 # 10))
           "b.py" Sample.b_py [] [] eq_refl Hn).
Defined.

(** X10: the blocks window mode returns for a file have pairwise
    different line ranges. *)
Theorem window_blocks_have_distinct_ranges W self path l out :
  exists bs st,
    extract_code_blocks W self path (l, out) = (Returned bs, st)
    /\ NoDup (map (fun b => (start_line b, end_line b)) bs).
Proof.
  rewrite extract_code_blocks_run. eexists _, _. split; [reflexivity|].
  unfold extracted. destruct (read_text W path); [|constructor].
  apply code_blocks_ranges_NoDup.
Qed.

(** X11: with [min_lines] at least 1, window mode returns at most 49
    blocks for each line of the file. *)
Theorem window_mode_block_count W self path text l out :
  read_text W path = Ok text ->
  (1 <= min_lines self)%Z ->
  exists bs st,
    extract_code_blocks W self path (l, out) = (Returned bs, st)
    /\ (length bs <= 49 * length (Py.readlines text))%nat.
Proof.
  intros Hr Hmin. rewrite extract_code_blocks_run. eexists _, _.
  split; [reflexivity|]. unfold extracted. rewrite Hr. by apply code_blocks_length.
Qed.

Lemma window_mode_block_count_witness :
  read_text Sample.world "a.py" = Ok Sample.a_py
  /\ (1 <= min_lines Sample.detector)%Z
  /\ exists bs st,
       extract_code_blocks Sample.world Sample.detector "a.py" ([], [])
       = (Returned bs, st)
       /\ (length bs <= 49 * length (Py.readlines Sample.a_py))%nat.
Proof.
  assert (1 <= min_lines Sample.detector)%Z as Hmin by (by vm_compute).
  split; [reflexivity|]. split; [exact Hmin|].
  exact (window_mode_block_count Sample.world Sample.detector "a.py" Sample.a_py
           [] [] eq_refl Hmin).
Defined.



(** In the sample file the function of six lines gives the one block; the
    one of two lines gives none. *)
Example function_mode_sample :
  map (fun b => (start_line b, end_line b))
    (blocks (run_detector SampleFunctions.world 5 (8 # 10) ["f.py"] true))
  = [(1, 6)%Z].
Proof. by vm_compute. Qed.

(** X13: every block of a run, in either mode, spans [min_lines] lines or
    more. *)
Theorem blocks_span_min_lines W min thr files uf :
  Forall (fun b => (min <= end_line b - start_line b + 1)%Z)
    (blocks (run_detector W min thr files uf)).
Proof.
  destruct (run_detector_shape W min thr files uf) as (new & -> & _). simpl.
  apply Forall_forall. intros b Hb.
  apply list_elem_of_In, in_flat_map in Hb as (path & _ & Hb).
  apply list_elem_of_In in Hb. unfold extracted in Hb.
  destruct (read_text W path) as [text|e]; [|by apply elem_of_nil in Hb].
  destruct uf.
  - destruct (ast_parse W text path) as [tree|e]; [|by apply elem_of_nil in Hb].
    apply list_elem_of_In, in_flat_map in Hb as (node & _ & Hb).
    apply list_elem_of_In in Hb. unfold function_blocks in Hb.
    destruct node as [lineno e|lineno e|]; [| |by apply elem_of_nil in Hb];
      (destruct (_ <=? _)%Z eqn:E; [|by apply elem_of_nil in Hb]);
      apply list_elem_of_singleton in Hb as ->; apply Z.leb_le in E; done.
  - pose proof (code_blocks_size W min path (Py.readlines text)) as Hs.
    rewrite Forall_forall in Hs. apply Hs in Hb. lia.
Qed.

(** X14: the keys of two pairs are equal exactly when the file paths and
    the start lines of their blocks are, side by side; the end lines and
    the contents play no part. *)
Theorem pair_key_is_path_and_start_line (b1 b2 b1' b2' : CodeBlock) :
  pair_key b1 b2 = pair_key b1' b2'
  <-> file_path b1 = file_path b1' /\ start_line b1 = start_line b1'
      /\ file_path b2 = file_path b2' /\ start_line b2 = start_line b2'.
Proof.
  unfold pair_key. split.
  - intros [= H1 H2].
    apply (key_string_inj _ _ (Py.str _) (Py.str _)) in H1 as [-> H1];
      try apply str_no_colon.
    apply (key_string_inj _ _ (Py.str _) (Py.str _)) in H2 as [-> H2];
      try apply str_no_colon.
    apply str_inj in H1, H2. done.
  - intros (-> & -> & -> & ->). done.
Qed.

(** ** More on the report and on [main] *)

(** X15: the report of a run lists the pairs of the exact pass first, in
    the order of their discovery, and the pairs of a score below 1.0
    after them. *)
Theorem report_lists_exact_pairs_first W min thr files uf :
  let det := run_detector W min thr files uf in
  exists similar,
    sorted_desc (duplicates det)
    = exact_pairs (Py.enumerate (blocks det)) ++ similar
    /\ Forall (fun d => dp_score d = 1%Q) (exact_pairs (Py.enumerate (blocks det)))
    /\ Forall (fun d => (dp_score d < 1)%Q) similar.
Proof.
  intros det. subst det.
  destruct (run_detector_shape W min thr files uf) as (new & Hrun & _ & Hrec & _).
  rewrite Hrun. cbn [duplicates blocks].
  set (exact := exact_pairs _).
  assert (Forall (fun d => dp_score d = 1%Q) exact) as Hex.
  { apply Forall_forall. intros d Hd. by apply exact_pairs_elem in Hd as (Hd & _). }
  assert (Forall (fun d => (dp_score d < 1)%Q) new) as Hnew.
  { eapply Forall_impl; [exact Hrec|]. by intros d (_ & _ & _ & H). }
  assert (Forall (fun d => (dp_score d <= 1)%Q) (sorted_desc (exact ++ new))) as Hle.
  { rewrite (sorted_desc_perm (exact ++ new)). apply Forall_app. split.
    - eapply Forall_impl; [exact Hex|]. intros d ->. apply Qle_refl.
    - eapply Forall_impl; [exact Hnew|]. intros d. apply Qlt_le_weak. }
  exists (filter (fun d => ~ (dp_score d == 1)%Q) (sorted_desc (exact ++ new))).
  split; [|split; [done|]].
  - rewrite (sorted_desc_exact_first _ (sorted_desc_sorted (exact ++ new)) Hle) at 1.
    f_equal. rewrite sorted_desc_stable, filter_app.
    rewrite (filter_all _ exact), (filter_none _ new), app_nil_r; [done| |].
    + eapply Forall_impl; [exact Hnew|]. intros d Hlt. by apply Qlt_not_eq.
    + eapply Forall_impl; [exact Hex|]. by intros d ->.
  - apply Forall_forall. intros d Hd. apply list_elem_of_filter in Hd as [Hn Hd].
    rewrite Forall_forall in Hle. apply Hle in Hd.
    apply Qle_lt_or_eq in Hd as [?|?]; [done|by destruct Hn].
Qed.

(** X16: the remediation tasks are grouped by the file of the first block
    of each pair: [print_report] prints, for each such file once, a line
    with the file and the tasks of its pairs; every recorded pair has its
    task under one file. *)
Theorem remediation_tasks_are_grouped_by_file (self : DuplicationDetector) :
  let groups := file_groups_of (sorted_desc (duplicates self)) in
  NoDup groups.*1
  /\ Forall (fun g : string * list DuplicatePair =>
               g.2 <> [] /\ Forall (fun d => file_path (dp_block1 d) = g.1) g.2)
       groups
  /\ concat groups.*2 ≡ₚ duplicates self
  /\ match duplicates self with
     | [] => True
     | _ :: _ =>
         exists entries,
           report_output self
           = entries
             ++ flat_map (fun g : string * list DuplicatePair =>
                            [Str (NL +:+ Colors.CYAN +:+ g.1 +:+ Colors.NC)]
                            :: flat_map task_lines g.2) groups
     end.
Proof.
  intros groups. subst groups.
  destruct (file_groups_of_hold (sorted_desc (duplicates self))) as (H1 & H2 & H3).
  split; [done|]. split; [done|]. split; [by rewrite H3, sorted_desc_perm|].
  unfold report_output. destruct (duplicates self) eqn:E; [done|].
  eexists. rewrite !app_assoc. reflexivity.
Qed.

(** X17: [find_duplicates] only appends: on any detector it keeps
    [min_lines] and the threshold, and the blocks and the pairs it finds
    there stay at the head of [self.blocks] and [self.duplicates]. *)
Theorem find_duplicates_only_appends W files uf fr out :
  let det' := self (find_duplicates W files uf (fr, out)).2.1 in
  min_lines det' = min_lines (self fr)
  /\ similarity_threshold det' = similarity_threshold (self fr)
  /\ blocks (self fr) `prefix_of` blocks det'
  /\ duplicates (self fr) `prefix_of` duplicates det'.
Proof.
  intros det'. subst det'. rewrite find_duplicates_run. cbn [fst snd].
  unfold found.
  destruct (similarity_pass_trace W
              (Py.enumerate (found_blocks W files uf fr))
              (mkFrame
                 (mkDetector (min_lines (self fr)) (similarity_threshold (self fr))
                    (found_blocks W files uf fr)
                    (duplicates (self fr)
                     ++ exact_pairs (Py.enumerate (found_blocks W files uf fr))))
                 ∅)) as [new Ht].
  apply sim_trace_fields in Ht as (H1 & H2 & H3 & H4).
  rewrite H1, H2, H3, H4. simpl. split; [done|]. split; [done|]. split.
  - unfold found_blocks. by apply prefix_app_r.
  - rewrite <- app_assoc. by apply prefix_app_r.
Qed.

(** X18: when files are found and they give fewer than two blocks, [main]
    ends with the line of success and exits with status 0. *)
Theorem main_succeeds_below_two_blocks W args :
  let files := find_python_files W (root_of W args) in
  let det :=
    run_detector W (arg_min_lines args) (arg_similarity args) files
      (arg_functions_only args) in
  files <> [] ->
  (length (blocks det) <= 1)%nat ->
  (main W args (None, [])).1 = Exited 0
  /\ last (main W args (None, [])).2.2 = Some success_line.
Proof.
  intros files det Hf Hb.
  assert (duplicates det = []) as Hd.
  { pose proof (recorded_ids_in_range W (arg_min_lines args) (arg_similarity args)
                  files (arg_functions_only args)) as H.
    cbv zeta in H. fold det in H. destruct (duplicates det) as [|d ds]; [done|].
    apply Forall_cons in H as [H _]. lia. }
  pose proof (main_files W args None [] Hf) as Hm. cbv zeta in Hm.
  change (main W args (None, [])) with (main W args (None, [])) in Hm.
  assert (det = self (found W files (arg_functions_only args)
                        (fresh_frame (arg_min_lines args) (arg_similarity args))))
    as Hdet.
  { unfold det, run_detector. by rewrite find_duplicates_run. }
  rewrite Hm. cbn [fst snd]. fold files. rewrite <- Hdet, Hd. split; [done|].
  rewrite !app_assoc. unfold report_output. rewrite Hd. apply last_snoc.
Qed.

Lemma main_succeeds_below_two_blocks_witness :
  let args := mkArgs 100 (8 # 10) false None in
  let files := find_python_files Sample.world (root_of Sample.world args) in
  files <> []
  /\ (length (blocks (run_detector Sample.world 100 (8 # 10) files false)) <= 1)%nat
  /\ (main Sample.world args (None, [])).1 = Exited 0
  /\ last (main Sample.world args (None, [])).2.2 = Some success_line.
Proof.
  intros args files.
  assert (files <> []) as Hf by (by vm_compute).
  assert (length (blocks (run_detector Sample.world 100 (8 # 10) files false)) <= 1)%nat
    as Hb by (vm_compute; lia).
  split; [exact Hf|]. split; [exact Hb|].
  exact (main_succeeds_below_two_blocks Sample.world args Hf Hb).
Defined.
